(** * galwave: wavelet decomposition of FITS rasters (wavelet.py)

    A shallow embedding of [FITSWaveletProcessor] from [wavelet.py]:
    [_save_image], [process_file] and [run_batch], together with the
    parts of NumPy, PyWavelets, Pillow and Astropy that the three methods
    call.  Samples are IEEE 754 binary64 values ([spec_float] of the
    Standard Library, operations [SF64add], [SF64sub], ...); arrays are a
    shape and a row-major buffer; the file system and the console are an
    explicit [world] threaded through the code; Python exceptions are
    the [Raise] outcome of a computation. *)

From Stdlib Require Import ZArith List String Lia Floats.
From stdpp Require Import base gmap strings pretty list.
Import ListNotations.

Open Scope string_scope.
Open Scope list_scope.
Open Scope Z_scope.

(** ** Python exceptions and fallible computations *)

(** The exceptions that the program and its libraries raise here; all
    of them derive from [Exception], the class that the two handlers of
    the program catch. *)
Inductive exn :=
  | ValueError (msg : string)
  | TypeError (msg : string)
  | IndexError (msg : string)
  | OSError (msg : string).

(** [str(e)] *)
Definition exn_str (e : exn) : string :=
  match e with
  | ValueError m | TypeError m | IndexError m | OSError m => m
  end.

Inductive result (A : Type) :=
  | Ok (a : A)
  | Raise (e : exn).
Arguments Ok {A} a.
Arguments Raise {A} e.

Definition rbind {A B} (r : result A) (k : A -> result B) : result B :=
  match r with
  | Ok a => k a
  | Raise e => Raise e
  end.

Declare Scope result_scope.
Delimit Scope result_scope with result.
Notation "x <-r c ; k" := (rbind c (fun x => k))
  (at level 100, c at next level, right associativity) : result_scope.

(** ** NumPy: binary64 samples *)

Definition float := spec_float.

Definition fzero : float := S754_zero false.
Definition fone : float := Eval vm_compute in SFone prec emax.
Definition of_Z (z : Z) : float := binary_normalize prec emax z 0 false.
Definition f255 : float := Eval vm_compute in of_Z 255.
(** the literal [1e-6]: the binary64 value nearest to it *)
Definition f1em6 : float := S754_finite false 4722366482869645 (-72).
(** largest finite binary64 magnitude, [np.finfo(float64).max] *)
Definition fmax_mantissa : positive := 9007199254740991.
Definition fmax_exponent : Z := 971.

Definition isnan (x : float) : bool :=
  match x with S754_nan => true | _ => false end.

(** [np.nan_to_num(x, nan=0.0)] on one sample: not-a-number becomes
    [0.0], the infinities become the largest finite values. *)
Definition nan_to_num (x : float) : float :=
  match x with
  | S754_nan => fzero
  | S754_infinity s => S754_finite s fmax_mantissa fmax_exponent
  | _ => x
  end.

(** The reduction steps of [np.min] and [np.max]: the accumulator is
    kept when it compares below (above) the next sample or is
    not-a-number, so a not-a-number sample propagates. *)
Definition minimum (acc x : float) : float :=
  if SFltb acc x || isnan acc then acc else x.
Definition maximum (acc x : float) : float :=
  if SFltb x acc || isnan acc then acc else x.

(** Truncation toward zero of a finite sample; the magnitude is
    [m * 2^e]. *)
Definition trunc (x : float) : Z :=
  match x with
  | S754_finite s m e =>
      let a := Z.shiftl (Zpos m) e in if s then - a else a
  | _ => 0
  end.

(** [.astype(np.uint8)] on one sample: the C conversion truncates
    toward zero; a value outside [0, 255] is reduced modulo 256 and
    not-a-number and the infinities give 0, as NumPy does on the usual
    platforms. *)
Definition astype_uint8 (x : float) : Z := trunc x mod 256.

(** ** NumPy: two-dimensional arrays *)

Record ndarray (A : Type) := mk_ndarray {
  rows : nat;
  cols : nat;
  flat : list A
}.
Arguments mk_ndarray {A} rows cols flat.
Arguments rows {A} n.
Arguments cols {A} n.
Arguments flat {A} n.

Definition shape {A} (a : ndarray A) : nat * nat := (rows a, cols a).

(** element-wise application keeps the shape *)
Definition amap {A B} (f : A -> B) (a : ndarray A) : ndarray B :=
  mk_ndarray (rows a) (cols a) (map f (flat a)).

Definition zeros_like (a : ndarray float) : ndarray float :=
  amap (fun _ => fzero) a.

Definition reduce (op : float -> float -> float) (what : string)
    (a : ndarray float) : result float :=
  match flat a with
  | [] => Raise (ValueError ("zero-size array to reduction operation "
                             +:+ what +:+ " which has no identity"))
  | x :: xs => Ok (fold_left op xs x)
  end.

Definition np_min := reduce minimum "minimum".
Definition np_max := reduce maximum "maximum".

(** ** Pillow images *)

(** An 8-bit greyscale image; [im_size] is (width, height). *)
Record image := mk_image {
  im_size : nat * nat;
  im_pixels : list Z
}.

(** [Image.fromarray] of a [uint8] array of shape (rows, cols). *)
Definition fromarray (a : ndarray Z) : image :=
  mk_image (cols a, rows a) (flat a).

(** ** Numeric kernels of the libraries

    The values computed by [np.log10], by the filter banks of
    [pywt.dwt2] and by Pillow's bilinear interpolation are taken as
    parameters: the development depends on their shapes and on the
    control flow around them only. *)

Inductive subband := cA_band | cH_band | cV_band | cD_band.

Record kernels := mk_kernels {
  log10 : float -> float;
  (** [dwt2_value wavelet data band i j]: coefficient (i, j) of a
      sub-band of one transform step *)
  dwt2_value : string -> ndarray float -> subband -> nat -> nat -> float;
  (** pixels of the interpolated image of the requested size *)
  bilinear : image -> nat * nat -> list Z
}.

(** ** Range normalisation ([_save_image], lines 49-63) *)

Section Normalize.
Context (K : kernels).
Local Open Scope result_scope.

Definition rescale (log_data : ndarray float) (d_min d_max : float)
    : ndarray float :=
  if SFltb f1em6 (SF64sub d_max d_min) then
    amap (fun x => SF64mul (SF64div (SF64sub x d_min)
                                    (SF64sub d_max d_min)) f255) log_data
  else zeros_like log_data.

Definition normalize (data : ndarray float) : result (ndarray Z) :=
  let clean_data := amap nan_to_num data in
  lo <-r np_min clean_data;
  let log_data :=
    amap (fun x => log10 K (SF64add (SF64sub x lo) fone)) clean_data in
  d_min <-r np_min log_data;
  d_max <-r np_max log_data;
  Ok (amap astype_uint8 (rescale log_data d_min d_max)).
End Normalize.

(** ** The world: files, directories, console *)

(** a FITS header: its cards, carried through as they are *)
Definition header := list (string * string).

(** image data of an HDU: a plane ([ndim = 2]) or a cube of planes
    ([ndim = 3]), the two cases line 83 is written for.  Data of four
    or more dimensions, of which [data[0, :, :]] leaves an array that is
    not a plane, and data of fewer than two are outside this type: what
    is stated of a [raster] is stated of two- and three-dimensional
    data. *)
Inductive raster :=
  | Plane (a : ndarray float)
  | Cube (planes : list (ndarray float)).

Record hdu := mk_hdu {
  hdu_header : header;
  hdu_data : option raster
}.

Inductive file :=
  | FitsFile (hdul : list hdu)
  | PngFile (img : image).

(** [pathlib.Path], split the way the code reads it *)
Record path := mk_path {
  parent : string;
  stem : string;
  suffix : string
}.

Definition path_name (p : path) : string := stem p +:+ suffix p.
Definition path_str (p : path) : string := parent p +:+ "/" +:+ path_name p.

Record world := mk_world {
  files : gmap string file;
  dirs : gset string;
  (** paths at which the system refuses to create a file or directory *)
  denied : gset string;
  (** result of [Path.glob]: directory, pattern *)
  glob : string -> string -> list path;
  stdout : list string;
  stderr : list string
}.

Definition set_files (f : gmap string file) (w : world) : world :=
  mk_world f (dirs w) (denied w) (glob w) (stdout w) (stderr w).
Definition set_dirs (d : gset string) (w : world) : world :=
  mk_world (files w) d (denied w) (glob w) (stdout w) (stderr w).
Definition set_stdout (o : list string) (w : world) : world :=
  mk_world (files w) (dirs w) (denied w) (glob w) o (stderr w).
Definition set_stderr (o : list string) (w : world) : world :=
  mk_world (files w) (dirs w) (denied w) (glob w) (stdout w) o.

(** A statement of the program: it may change the world and then
    either returns or raises; what it did before raising stays done. *)
Definition io (A : Type) : Type := world -> result A * world.

Definition ret {A} (a : A) : io A := fun w => (Ok a, w).
Definition raise {A} (e : exn) : io A := fun w => (Raise e, w).
Definition lift {A} (r : result A) : io A := fun w => (r, w).

Definition bind {A B} (c : io A) (k : A -> io B) : io B :=
  fun w =>
    match c w with
    | (Ok a, w') => k a w'
    | (Raise e, w') => (Raise e, w')
    end.

(** [try: c  except Exception as e: h e] *)
Definition try_except {A} (c : io A) (h : exn -> io A) : io A :=
  fun w =>
    match c w with
    | (Ok a, w') => (Ok a, w')
    | (Raise e, w') => h e w'
    end.

Declare Scope io_scope.
Delimit Scope io_scope with io.
Notation "x <- c ;; k" := (bind c (fun x => k))
  (at level 100, c at next level, right associativity) : io_scope.
Notation "c ;; k" := (bind c (fun _ => k))
  (at level 100, right associativity) : io_scope.

Definition newline : string := String (Ascii.ascii_of_nat 10) EmptyString.

(** [print(s, end=e)] *)
Definition print_end (s e : string) : io unit :=
  fun w => (Ok tt, set_stdout (stdout w ++ [s +:+ e]) w).
Definition print (s : string) : io unit := print_end s newline.

Definition permission_denied (p : string) : string :=
  "[Errno 13] Permission denied: '" +:+ p +:+ "'".

(** [Path.mkdir(parents=True, exist_ok=True)] *)
Definition mkdir (p : string) : io unit :=
  fun w =>
    if bool_decide (p ∈ denied w) then
      (Raise (OSError (permission_denied p)), w)
    else match files w !! p with
         | Some _ =>
             (Raise (OSError ("[Errno 17] File exists: '" +:+ p +:+ "'")), w)
         | None => (Ok tt, set_dirs ({[p]} ∪ dirs w) w)
         end.

(** creating or overwriting the file at [p] *)
Definition write_file (p : string) (f : file) : io unit :=
  fun w =>
    if bool_decide (p ∈ denied w) then
      (Raise (OSError (permission_denied p)), w)
    else (Ok tt, set_files (<[p := f]> (files w)) w).

(** ** Astropy *)

(** [fits.open(filepath)] *)
Definition fits_open (p : path) : io (list hdu) :=
  fun w =>
    match files w !! path_str p with
    | Some (FitsFile hdul) => (Ok hdul, w)
    | Some (PngFile _) =>
        (Raise (OSError "No SIMPLE card found, this file does not appear to be a valid FITS file."), w)
    | None =>
        (Raise (OSError ("[Errno 2] No such file or directory: '"
                         +:+ path_str p +:+ "'")), w)
    end.

(** [hdul[i]] *)
Definition hdul_index (hdul : list hdu) (i : nat) : result hdu :=
  match hdul !! i with
  | Some h => Ok h
  | None => Raise (IndexError "list index out of range")
  end.

(** [fits.PrimaryHDU(data, header=header)]; without a header the HDU
    gets a minimal one, which carries no card of the input. *)
Definition PrimaryHDU (data : ndarray float) (hd : option header) : hdu :=
  mk_hdu (default [] hd) (Some (Plane data)).

(** [hdu.writeto(fits_path, overwrite=True)] *)
Definition writeto (h : hdu) (fits_path : string) : io unit :=
  write_file fits_path (FitsFile [h]).

(** ** Pillow: resize and save *)

Section Pillow.
Context (K : kernels).

(** [Image.resize(size, Image.BILINEAR)]: a request for the size the
    image already has returns a copy of it. *)
Definition Image_resize (img : image) (size : nat * nat) : result image :=
  if bool_decide (im_size img = size) then Ok img
  else if ((fst size =? 0) || (snd size =? 0))%nat then
    Raise (ValueError "height and width must be > 0")
  else Ok (mk_image size (bilinear K img size)).

(** [img.save(png_path)] *)
Definition Image_save (img : image) (png_path : string) : io unit :=
  write_file png_path (PngFile img).
End Pillow.

(** ** Python warnings *)

Inductive warning_category := UserWarning | RuntimeWarning.
Inductive warning_action := action_ignore | action_default.

Definition category_eqb (a b : warning_category) : bool :=
  match a, b with
  | UserWarning, UserWarning | RuntimeWarning, RuntimeWarning => true
  | _, _ => false
  end.

(** line 12: [warnings.filterwarnings('ignore', category=UserWarning,
    append=True)] *)
Definition warning_filters : list (warning_action * warning_category) :=
  [(action_ignore, UserWarning)].

Fixpoint filter_action (fs : list (warning_action * warning_category))
    (c : warning_category) : warning_action :=
  match fs with
  | [] => action_default
  | (a, c') :: fs' => if category_eqb c c' then a else filter_action fs' c
  end.

(** [warnings.warn(msg, category)]: shown on the error stream unless a
    filter ignores the category; it never raises. *)
Definition warnings_warn (msg : string) (c : warning_category) : io unit :=
  fun w =>
    match filter_action warning_filters c with
    | action_ignore => (Ok tt, w)
    | action_default => (Ok tt, set_stderr (stderr w ++ [msg]) w)
    end.

(** ** PyWavelets *)

(** [str.lower] on the ASCII letters *)
Definition lower_ascii (c : Ascii.ascii) : Ascii.ascii :=
  let n := Ascii.nat_of_ascii c in
  if ((65 <=? n) && (n <=? 90))%nat then Ascii.ascii_of_nat (n + 32) else c.

Fixpoint lower (s : string) : string :=
  match s with
  | EmptyString => EmptyString
  | String c s' => String (lower_ascii c) (lower s')
  end.

Definition family (prefix : string) (orders : list nat) (dec_len : nat -> nat)
    : list (string * nat) :=
  map (fun n => (prefix +:+ pretty n, dec_len n)) orders.

Definition biorthogonal (prefix : string) : list (string * nat) :=
  map (fun '(o, n) => (prefix +:+ o, n))
    [("1.1", 2); ("1.3", 6); ("1.5", 10);
     ("2.2", 6); ("2.4", 10); ("2.6", 14); ("2.8", 18);
     ("3.1", 4); ("3.3", 8); ("3.5", 12); ("3.7", 16); ("3.9", 20);
     ("4.4", 10); ("5.5", 12); ("6.8", 18)]%nat.

(** the built-in discrete wavelets, [pywt.wavelist(kind='discrete')],
    each with the length [dec_len] of its decomposition filters *)
Definition wavelist : list (string * nat) :=
  concat [ [("haar", 2)];
           family "db" (seq 1 38) (fun n => 2 * n);
           family "sym" (seq 2 19) (fun n => 2 * n);
           family "coif" (seq 1 17) (fun n => 6 * n);
           biorthogonal "bior";
           biorthogonal "rbio";
           [("dmey", 62)] ]%nat.

Fixpoint assoc (name : string) (l : list (string * nat)) : option nat :=
  match l with
  | [] => None
  | (n, v) :: l' => if String.eqb name n then Some v else assoc name l'
  end.

(** [pywt.Wavelet(name).dec_len]: the name is looked up in lower
    case; a name that is not the one of a built-in discrete wavelet is
    refused *)
Definition Wavelet (name : string) : result nat :=
  if String.eqb name "" then
    Raise (TypeError "Wavelet name or filter bank must be specified.")
  else match assoc (lower name) wavelist with
       | Some dec_len => Ok dec_len
       | None =>
           Raise (ValueError ("Unknown wavelet name '" +:+ lower name
             +:+ "', check wavelist() for the list of available builtin wavelets."))
       end.

(** [pywt.dwt_max_level(data_len, filter_len)] *)
Definition dwt_max_level (data_len filter_len : nat) : nat :=
  if ((filter_len <=? 1) || (data_len <? filter_len - 1))%nat then 0%nat
  else Nat.log2 (data_len / (filter_len - 1)).

(** [pywt.dwt_coeff_len(data_len, filter_len, mode='symmetric')] *)
Definition dwt_coeff_len (data_len filter_len : nat) : nat :=
  if (data_len =? 0)%nat then 0%nat else ((data_len + filter_len - 1) / 2)%nat.

(** the detail coefficients of one level: horizontal, vertical, diagonal *)
Definition details : Type := ndarray float * ndarray float * ndarray float.

(** what [wavedec2] returns: [coeffs[0]] and [coeffs[1:]] *)
Record coeffs := mk_coeffs {
  approx : ndarray float;
  detail_levels : list details
}.

Definition tabulate (r c : nat) (f : nat -> nat -> float) : ndarray float :=
  mk_ndarray r c (flat_map (fun i => map (f i) (seq 0 c)) (seq 0 r)).

Section PyWavelets.
Context (K : kernels).

(** [pywt.dwt2(data, wavelet)], mode [symmetric]: [(cA, (cH, cV, cD))] *)
Definition dwt2 (wavelet : string) (dec_len : nat) (a : ndarray float)
    : ndarray float * details :=
  let r := dwt_coeff_len (rows a) dec_len in
  let c := dwt_coeff_len (cols a) dec_len in
  let band b := tabulate r c (dwt2_value K wavelet a b) in
  (band cA_band, (band cH_band, band cV_band, band cD_band)).

(** [_check_level]: a negative level is an error; a level above the
    maximum useful one only warns. *)
Definition _check_level (sizes : nat * nat) (dec_len : nat) (level : Z)
    : io Z :=
  let max_level := Nat.min (dwt_max_level (fst sizes) dec_len)
                           (dwt_max_level (snd sizes) dec_len) in
  if level <? 0 then
    raise (ValueError ("Level value of " +:+ pretty level
                       +:+ " is too low . Minimum level is 0."))
  else if Z.of_nat max_level <? level then
    bind (warnings_warn ("Level value of " +:+ pretty level
            +:+ " is too high: all coefficients will experience boundary effects.")
            UserWarning)
         (fun _ => ret level)
  else ret level.

(** the loop [for i in range(level): a, ds = dwt2(a, ...);
    coeffs_list.append(ds)] *)
Fixpoint wavedec2_loop (wavelet : string) (dec_len : nat) (n : nat)
    (a : ndarray float) (coeffs_list : list details)
    : ndarray float * list details :=
  match n with
  | O => (a, coeffs_list)
  | S n' =>
      let '(a', ds) := dwt2 wavelet dec_len a in
      wavedec2_loop wavelet dec_len n' a' (coeffs_list ++ [ds])
  end.

(** [pywt.wavedec2(data, wavelet, level=level)]; the list is reversed
    at the end, so the coarsest level comes first. *)
Definition wavedec2 (data : ndarray float) (wavelet : string) (level : Z)
    : io coeffs :=
  bind (lift (Wavelet wavelet)) (fun dec_len =>
  bind (_check_level (shape data) dec_len level) (fun level =>
  let '(a, coeffs_list) :=
    wavedec2_loop wavelet dec_len (Z.to_nat level) data [] in
  ret (mk_coeffs a (rev coeffs_list)))).
End PyWavelets.

(** ** FITSWaveletProcessor *)

(** the attributes set by [_load_config], all four assigned; a
    processor on which the loader stopped early is an [attributes]
    below *)
Record config := mk_config {
  input_dir : string;
  output_dir : string;
  wavelet : string;
  level : Z
}.

Section Processor.
Context (K : kernels) (self : config).
Local Open Scope io_scope.

(** lines 67-69: [if resize_to: img = img.resize((resize_to[1],
    resize_to[0]), Image.BILINEAR)]; [resize_to] is a shape
    (rows, cols), Pillow takes (width, height). *)
Definition resample (img : image) (resize_to : option (nat * nat))
    : result image :=
  match resize_to with
  | Some sh => Image_resize K img (snd sh, fst sh)
  | None => Ok img
  end.

(** lines 49-69: the image that is saved, from the band *)
Definition render (data : ndarray float) (resize_to : option (nat * nat))
    : result image :=
  rbind (normalize K data) (fun rescaled =>
  resample (fromarray rescaled) resize_to).

(** [_save_image(data, path_prefix, header, resize_to)] *)
Definition _save_image (data : ndarray float) (path_prefix : string)
    (hd : option header) (resize_to : option (nat * nat)) : io unit :=
  try_except
    (let fits_path := path_prefix +:+ ".fits" in
     writeto (PrimaryHDU data hd) fits_path ;;
     let png_path := path_prefix +:+ ".png" in
     img <- lift (render data resize_to) ;;
     Image_save img png_path)
    (fun e => print ("Erro ao salvar: " +:+ exn_str e)).

(** line 99: [level_idx = self.level - i] *)
Definition level_idx (i : nat) : Z := level self - Z.of_nat i.

(** line 100: [base_path = str(galaxy_folder / f"L{level_idx}")] *)
Definition base_path_of (galaxy_folder : string) (i : nat) : string :=
  galaxy_folder +:+ "/" +:+ "L" +:+ pretty (level_idx i).

(** lines 98-104: the loop over [enumerate(coeffs[1:])], from index
    [i] on *)
Fixpoint save_details (galaxy_folder : string) (hd : header)
    (orig_shape : nat * nat) (i : nat) (levels : list details) : io unit :=
  match levels with
  | [] => ret tt
  | (h, v, d) :: rest =>
      let base_path := base_path_of galaxy_folder i in
      _save_image h (base_path +:+ "_horizontal") (Some hd) (Some orig_shape) ;;
      _save_image v (base_path +:+ "_vertical") (Some hd) (Some orig_shape) ;;
      _save_image d (base_path +:+ "_diagonal") (Some hd) (Some orig_shape) ;;
      save_details galaxy_folder hd orig_shape (S i) rest
  end.

(** lines 94-104: the approximation, then the detail levels *)
Definition save_bands (galaxy_folder galaxy_name : string) (hd : header)
    (orig_shape : nat * nat) (c : coeffs) : io unit :=
  _save_image (approx c)
    (galaxy_folder +:+ "/" +:+ galaxy_name +:+ "_core_approx")
    (Some hd) (Some orig_shape) ;;
  save_details galaxy_folder hd orig_shape 0 (detail_levels c).

(** lines 78-80: the raster of the first HDU, or of the second when
    the first has none, and a copy of the header of the first *)
Definition load (filepath : path) : io (option raster * header) :=
  hdul <- fits_open filepath ;;
  hdu0 <- lift (hdul_index hdul 0) ;;
  data <- match hdu_data hdu0 with
          | Some d => ret (Some d)
          | None => hdu1 <- lift (hdul_index hdul 1) ;; ret (hdu_data hdu1)
          end ;;
  ret (data, hdu_header hdu0).

(** [if data.ndim > 2: data = data[0, :, :]] *)
Definition first_plane (data : raster) : result (ndarray float) :=
  match data with
  | Plane a => Ok a
  | Cube (a :: _) => Ok a
  | Cube [] =>
      Raise (IndexError "index 0 is out of bounds for axis 0 with size 0")
  end.

Definition galaxy_folder_of (filepath : path) : string :=
  output_dir self +:+ "/" +:+ stem filepath.

(** the body of the [try] of [process_file] *)
Definition process_file_body (filepath : path) : io (bool * string) :=
  loaded <- load filepath ;;
  let '(data, hd) := loaded in
  match data with
  | None => ret (false, "FITS vazio")
  | Some data =>
      data <- lift (first_plane data) ;;
      let orig_shape := shape data in
      let galaxy_name := stem filepath in
      let galaxy_folder := galaxy_folder_of filepath in
      mkdir galaxy_folder ;;
      coeffs <- wavedec2 K data (wavelet self) (level self) ;;
      save_bands galaxy_folder galaxy_name hd orig_shape coeffs ;;
      ret (true, "Sucesso")
  end.

(** [process_file(filepath)]: the [try] with its
    [except Exception as e: return False, str(e)] *)
Definition process_file (filepath : path) : world -> (bool * string) * world :=
  fun w =>
    match process_file_body filepath w with
    | (Ok r, w') => (r, w')
    | (Raise e, w') => ((false, exn_str e), w')
    end.

(** the loop of [run_batch] over the files found *)
Fixpoint batch_loop (fs : list path) : io unit :=
  match fs with
  | [] => ret tt
  | fpath :: rest =>
      print_end ("-> " +:+ path_name fpath) " " ;;
      fun w =>
        let '((success, msg), w') := process_file fpath w in
        (print ("[" +:+ msg +:+ "]") ;; batch_loop rest) w'
  end.

(** [run_batch()] *)
Definition run_batch : io unit :=
  mkdir (output_dir self) ;;
  fun w =>
    let fs := glob w (input_dir self) "*.fits"
              ++ glob w (input_dir self) "*.fit" in
    (print ("--- Processando " +:+ pretty (length fs)
            +:+ " imagens com Escala Log e Resize ---") ;;
     batch_loop fs) w.
End Processor.

(** ** A concrete instance of the kernels

    Used to evaluate the model on examples only: a fixed-point
    logarithm, decimation in place of the filter banks, nearest
    neighbour in place of interpolation.  The general theorems are
    stated for every instance. *)

(** [floor (log10 2 * 2^128)] *)
Definition LOG10_2 : Z := 102435199438739363750012109250103232700.

(** the first [n] fractional bits of [log2 (y / 2^128)], for
    [2^128 <= y < 2^129], by repeated squaring *)
Fixpoint log2_bits (n : nat) (y acc : Z) : Z :=
  match n with
  | O => acc
  | S n' =>
      let y2 := Z.shiftr (y * y) 128 in
      if Z.shiftl 1 129 <=? y2
      then log2_bits n' (Z.shiftr y2 1) (2 * acc + 1)
      else log2_bits n' y2 (2 * acc)
  end.

Definition log10_fixed (x : float) : float :=
  match x with
  | S754_nan => S754_nan
  | S754_infinity s => if s then S754_nan else x
  | S754_zero _ => S754_infinity true
  | S754_finite true _ _ => S754_nan
  | S754_finite false m e =>
      let d := Z.pos (digits2_pos m) in
      let y := Z.shiftl (Z.pos m) (128 - (d - 1)) in
      let l2 := (e + d - 1) * 2 ^ 64 + log2_bits 64 y 0 in
      binary_normalize prec emax (Z.shiftr (l2 * LOG10_2) 128) (-64) false
  end.

Definition decimate (a : ndarray float) (b : subband) (i j : nat) : float :=
  match b with
  | cA_band =>
      nth (Nat.min (2 * i) (rows a - 1) * cols a
           + Nat.min (2 * j) (cols a - 1))%nat (flat a) fzero
  | _ => fzero
  end.

Definition nearest (img : image) (size : nat * nat) : list Z :=
  let '(w, h) := im_size img in
  flat_map (fun y => map (fun x =>
              nth ((y * h / snd size) * w + x * w / fst size)%nat
                  (im_pixels img) 0)
            (seq 0 (fst size)))
           (seq 0 (snd size)).

Definition sample_kernels : kernels :=
  mk_kernels log10_fixed (fun _ => decimate) nearest.

(** ** Vocabulary of the properties *)

Definition is_zero (x : float) : Prop := exists s, x = S754_zero s.

(** two samples are equal: the same value, or equal for [==] (which
    identifies the two zeros) *)
Definition same_sample (x c : float) : Prop := x = c \/ SFeqb x c = true.

(** [w'] comes from [w] by persisting bands under the header [hd]: the
    refusals of the system and the error stream are the same, and every
    path holds what it
    held in [w], or a FITS file made of one HDU with header [hd], or a
    PNG image. *)
Definition persisted (hd : header) (w w' : world) : Prop :=
  denied w' = denied w
  /\ stderr w' = stderr w
  /\ forall q,
       files w' !! q = files w !! q
       \/ (exists band,
             files w' !! q = Some (FitsFile [mk_hdu hd (Some (Plane band))]))
       \/ (exists img, files w' !! q = Some (PngFile img)).

(** length of an axis after [k] transform steps *)
Definition len_at (dec_len n k : nat) : nat :=
  Nat.iter k (fun n => dwt_coeff_len n dec_len) n.

(** shape of the bands of decomposition level [k] *)
Definition level_shape (dec_len : nat) (sh : nat * nat) (k : nat) : nat * nat :=
  (len_at dec_len (fst sh) k, len_at dec_len (snd sh) k).

(** the three bands of a level all have shape [sh] *)
Definition band_shapes (sh : nat * nat) (ds : details) : Prop :=
  let '(h, v, d) := ds in shape h = sh /\ shape v = sh /\ shape d = sh.

(** the world after the loop of [run_batch] has handled the file [f]:
    its name is printed, [process_file] runs, its message is printed *)
Definition after_file (K : kernels) (self : config) (f : path) (w : world)
    : world :=
  let w1 := set_stdout (stdout w ++ [("-> " +:+ path_name f) +:+ " "]) w in
  let r := process_file K self f w1 in
  set_stdout (stdout (snd r) ++ [("[" +:+ snd (fst r) +:+ "]") +:+ newline])
             (snd r).

(** [pywt]'s bound on the useful depth for a raster of shape [sh] *)
Definition max_level (dec_len : nat) (sh : nat * nat) : nat :=
  Nat.min (dwt_max_level (fst sh) dec_len) (dwt_max_level (snd sh) dec_len).

(** ** Sample inputs *)

Definition sample_header : header := [("OBJECT", "M31"); ("TELESCOP", "T80")].

Definition sample_band : ndarray float :=
  mk_ndarray 1 2 [of_Z 10; of_Z 1000].

Definition no_glob : string -> string -> list path := fun _ _ => [].

(** the configuration written by [_create_default_config] *)
Definition default_config : config :=
  mk_config "DATA" "PROCESSED" "bior3.3" 4.

Definition sample_path : path := mk_path "DATA" "g" ".fits".

Definition sample_raster : ndarray float :=
  mk_ndarray 4 4 (map of_Z [1; 2; 3; 4; 5; 6; 7; 8;
                            9; 10; 11; 12; 13; 14; 15; 1000]).

(** 64 x 64 samples of value 10 with one sample of value 1000 *)
Definition scenario_raster : ndarray float :=
  tabulate 64 64 (fun i j => if ((i =? 32) && (j =? 32))%nat
                             then of_Z 1000 else of_Z 10).

Definition second_header : header := [("EXTNAME", "SCI")].

Definition world_of (hdul : list hdu) (refused : gset string) : world :=
  mk_world {["DATA/g.fits" := FitsFile hdul]} ∅ refused no_glob [] [].

(** one HDU holding a 4 x 4 raster *)
Definition world_input : world :=
  world_of [mk_hdu sample_header (Some (Plane sample_raster))] ∅.


(** two HDUs without data *)
Definition world_no_raster : world :=
  world_of [mk_hdu sample_header None; mk_hdu second_header None] ∅.

(** the raster is in the second HDU *)
Definition world_second_hdu : world :=
  world_of [mk_hdu sample_header None;
            mk_hdu second_header (Some (Plane sample_raster))] ∅.

(** a batch of three files of which the second does not exist *)
Definition world_batch : world :=
  mk_world {["DATA/a.fits" := FitsFile [mk_hdu sample_header
                                          (Some (Plane sample_raster))];
             "DATA/c.fits" := FitsFile [mk_hdu sample_header
                                          (Some (Plane sample_raster))]]}
           ∅ ∅
           (fun d pat => if String.eqb pat "*.fits"
                         then [mk_path d "a" ".fits"; mk_path d "b" ".fits";
                               mk_path d "c" ".fits"]
                         else [])
           [] [].

(** a world in which the FITS file of the band cannot be created *)
Definition world_fits_denied : world :=
  mk_world ∅ ∅ {["out/band.fits"]} no_glob [] [].

(** a world in which the PNG file of the band cannot be created *)
Definition world_png_denied : world :=
  mk_world ∅ ∅ {["out/band.png"]} no_glob [] [].

(** ** Configuration ([_load_config])

    [configparser] and [int] are taken through what they answer: whether
    a section and an option exist, the value of an option (or the
    message of the parser's own error), and the integer a string
    denotes, if any. *)

Inductive config_exn :=
  | KeyError (key : string)
  | IntValueError (literal : string)
  | ParserError (msg : string).

(** [str(e)]; a [KeyError] shows its key between quotes *)
Definition config_exn_str (e : config_exn) : string :=
  match e with
  | KeyError k => "'" +:+ k +:+ "'"
  | IntValueError s => "invalid literal for int() with base 10: '" +:+ s +:+ "'"
  | ParserError m => m
  end.

Record parser := mk_parser {
  has_section : string -> bool;
  has_option : string -> string -> bool;
  get_value : string -> string -> string + string;
  int_of_str : string -> option Z
}.

(** [self.config[section][key]]: a missing section, then a missing
    option, is a [KeyError] on the name asked for *)
Definition getitem (cp : parser) (section key : string)
    : string + config_exn :=
  if negb (has_section cp section) then inr (KeyError section)
  else if negb (has_option cp section key) then inr (KeyError key)
  else match get_value cp section key with
       | inl v => inl v
       | inr m => inr (ParserError m)
       end.

(** the attributes that [_load_config] assigns; [None] when the
    attribute has not been assigned.  The directories hold the argument
    given to [Path]. *)
Record attributes := mk_attributes {
  attr_input_dir : option string;
  attr_output_dir : option string;
  attr_wavelet : option string;
  attr_level : option Z
}.

(** the object when [__init__] calls [_load_config] *)
Definition no_attributes : attributes := mk_attributes None None None None.

Record load_outcome := mk_load_outcome {
  raised : option config_exn;
  attrs : attributes;
  printed : list string
}.

(** lines 34-35: [except KeyError as e: print(f"Erro no Config: {e}")];
    any other exception leaves the method *)
Definition except_KeyError (e : config_exn) (a : attributes) : load_outcome :=
  match e with
  | KeyError _ =>
      mk_load_outcome None a
        ["Erro no Config: " +:+ config_exn_str e +:+ newline]
  | _ => mk_load_outcome (Some e) a []
  end.

(** [_load_config()], lines 28-35 *)
Definition _load_config (cp : parser) (self : attributes) : load_outcome :=
  match getitem cp "PATHS" "input_folder" with
  | inr e => except_KeyError e self
  | inl v =>
  let self := mk_attributes (Some v) (attr_output_dir self)
                (attr_wavelet self) (attr_level self) in
  match getitem cp "PATHS" "output_folder" with
  | inr e => except_KeyError e self
  | inl v =>
  let self := mk_attributes (attr_input_dir self) (Some v)
                (attr_wavelet self) (attr_level self) in
  match getitem cp "PARAMETERS" "wavelet_type" with
  | inr e => except_KeyError e self
  | inl v =>
  let self := mk_attributes (attr_input_dir self) (attr_output_dir self)
                (Some v) (attr_level self) in
  match getitem cp "PARAMETERS" "decomposition_level" with
  | inr e => except_KeyError e self
  | inl v =>
  match int_of_str cp v with
  | None => except_KeyError (IntValueError v) self
  | Some n =>
      mk_load_outcome None
        (mk_attributes (attr_input_dir self) (attr_output_dir self)
           (attr_wavelet self) (Some n)) []
  end end end end end.

(** the line that the handler of lines 34-35 prints for a missing
    section or option [k] *)
Definition key_error_line (k : string) : string :=
  "Erro no Config: " +:+ config_exn_str (KeyError k) +:+ newline.

(** ** The processor after [_load_config]

    The handler of lines 34-35 lets the constructor return with the
    attributes after the failed lookup unassigned; reading one of them
    later is an [AttributeError].  [run_batch] reads [output_dir]
    (line 112) and [input_dir] (line 113) outside any handler;
    [process_file] reads [output_dir] (line 87), [wavelet] and [level]
    (line 91) inside its [try]. *)



Section Attributes.
Context (K : kernels).
(** [str(Path(v))] *)
Context (path_of : string -> string).
Context (self : attributes).
Local Open Scope io_scope.





End Attributes.

(** ** Further vocabulary *)

(** lines 49-53: the logarithms of the sanitised, shifted samples *)
Definition log_data_of (K : kernels) (data : ndarray float)
    : result (ndarray float) :=
  let clean_data := amap nan_to_num data in
  rbind (np_min clean_data) (fun lo =>
  Ok (amap (fun x => log10 K (SF64add (SF64sub x lo) fone)) clean_data)).

(** lines 55-57: [d_max - d_min] *)
Definition log_range (K : kernels) (data : ndarray float) : result float :=
  rbind (log_data_of K data) (fun log_data =>
  rbind (np_min log_data) (fun d_min =>
  rbind (np_max log_data) (fun d_max =>
  Ok (SF64sub d_max d_min)))).

Definition is_finite (x : float) : Prop :=
  match x with S754_finite _ _ _ => True | _ => False end.

(** the three suffixes of lines 102-104 *)
Definition orientation (o : string) : Prop :=
  o = "_horizontal" \/ o = "_vertical" \/ o = "_diagonal".

(** lines 102-104: the bands of the triple at index [i], each with the
    prefix of its two files *)
Definition details_entries_one (self : config) (folder : string) (i : nat)
    (ds : details) : list (string * ndarray float) :=
  let '(h, v, d) := ds in
  [(base_path_of self folder i +:+ "_horizontal", h);
   (base_path_of self folder i +:+ "_vertical", v);
   (base_path_of self folder i +:+ "_diagonal", d)].

Fixpoint details_entries (self : config) (folder : string) (i : nat)
    (levels : list details) : list (string * ndarray float) :=
  match levels with
  | [] => []
  | ds :: rest =>
      details_entries_one self folder i ds
      ++ details_entries self folder (S i) rest
  end.

(** lines 94-104: every band of a file with the prefix of its two
    files, in the order in which they are persisted *)
Definition band_entries (self : config) (folder name : string) (c : coeffs)
    : list (string * ndarray float) :=
  (folder +:+ "/" +:+ name +:+ "_core_approx", approx c)
  :: details_entries self folder 0 (detail_levels c).

(** [_save_image] on each entry in turn *)
Fixpoint save_all (K : kernels) (hd : header) (sh : nat * nat)
    (l : list (string * ndarray float)) : io unit :=
  match l with
  | [] => ret tt
  | (p, b) :: rest =>
      bind (_save_image K b p (Some hd) (Some sh)) (fun _ =>
      save_all K hd sh rest)
  end.



(** ** Further sample inputs *)

(** a parser over sections given as lists, with plain values and
    unsigned decimal literals *)
Fixpoint digits_value (s : string) (acc : Z) : option Z :=
  match s with
  | EmptyString => Some acc
  | String c s' =>
      let n := Ascii.nat_of_ascii c in
      if ((48 <=? n) && (n <=? 57))%nat
      then digits_value s' (10 * acc + Z.of_nat (n - 48))
      else None
  end.

Definition decimal (s : string) : option Z :=
  match s with
  | EmptyString => None
  | _ => digits_value s 0
  end.

Fixpoint lookup_pair {A} (k : string) (l : list (string * A)) : option A :=
  match l with
  | [] => None
  | (k', v) :: l' => if String.eqb k k' then Some v else lookup_pair k l'
  end.

Definition list_parser (sections : list (string * list (string * string)))
    : parser :=
  mk_parser
    (fun s => match lookup_pair s sections with Some _ => true | None => false end)
    (fun s k => match lookup_pair s sections with
                | Some opts => match lookup_pair k opts with
                               | Some _ => true
                               | None => false
                               end
                | None => false
                end)
    (fun s k => match lookup_pair s sections with
                | Some opts => match lookup_pair k opts with
                               | Some v => inl v
                               | None => inr "no option"
                               end
                | None => inr "no section"
                end)
    decimal.

(** the file written by [_create_default_config] *)
Definition default_parser : parser :=
  list_parser
    [("PATHS", [("input_folder", "DATA"); ("output_folder", "PROCESSED")]);
     ("PARAMETERS", [("wavelet_type", "bior3.3");
                     ("decomposition_level", "4")]);
     ("OUTPUT", [("format", "BOTH"); ("save_mode", "all_layers")])].

(** a file without the section [PARAMETERS] *)
Definition paths_only_parser : parser :=
  list_parser
    [("PATHS", [("input_folder", "DATA"); ("output_folder", "PROCESSED")])].

(** a file whose level is not a number *)
Definition bad_level_parser : parser :=
  list_parser
    [("PATHS", [("input_folder", "DATA"); ("output_folder", "PROCESSED")]);
     ("PARAMETERS", [("wavelet_type", "bior3.3");
                     ("decomposition_level", "four")])].




(** a decomposition of one level, for the names *)
Definition one_level : coeffs :=
  mk_coeffs sample_band [(sample_band, sample_band, sample_band)].

(** * Properties *)

(** ** Samples *)

Lemma SF64sub_diag (v : float) :
  SF64sub v v = fzero \/ SF64sub v v = S754_nan.
Proof.
  destruct v as [[]|[]| |s m e]; auto.
  left. unfold SF64sub, SFsub. cbv zeta. rewrite Z.sub_diag. reflexivity.
Qed.

(** the difference of a sample with itself never exceeds [1e-6] *)
Lemma SF64sub_diag_small (v : float) : SFltb f1em6 (SF64sub v v) = false.
Proof. destruct (SF64sub_diag v) as [-> | ->]; reflexivity. Qed.

Lemma minimum_idem (x : float) : minimum x x = x.
Proof. unfold minimum. destruct (_ || _); reflexivity. Qed.

Lemma maximum_idem (x : float) : maximum x x = x.
Proof. unfold maximum. destruct (_ || _); reflexivity. Qed.

Lemma astype_uint8_range (x : float) : 0 <= astype_uint8 x <= 255.
Proof.
  unfold astype_uint8. pose proof (Z.mod_pos_bound (trunc x) 256). lia.
Qed.

Lemma astype_uint8_all (l : list float) :
  Forall (fun v => 0 <= v <= 255) (map astype_uint8 l).
Proof.
  induction l; simpl; constructor; auto using astype_uint8_range.
Qed.

(** the literal of line 57 is the quotient of 1 by 10^6 *)
Example f1em6_value : SF64div fone (of_Z 1000000) = f1em6.
Proof. reflexivity. Qed.

(** ** Arrays *)

Lemma fold_left_const (op : float -> float -> float) (c : float)
    (l : list float) :
  op c c = c -> Forall (fun x => x = c) l -> fold_left op l c = c.
Proof.
  intros Hop. induction 1 as [|x l -> _ IH]; simpl; [done|]. by rewrite Hop.
Qed.

Lemma map_const {A B} (f : A -> B) (c : A) (l : list A) :
  Forall (fun x => x = c) l -> map f l = map (fun _ => f c) l.
Proof. induction 1 as [|x l -> _ IH]; simpl; [done|]. by rewrite IH. Qed.

Lemma map_nonempty {A B} (f : A -> B) (l : list A) :
  l <> [] -> map f l <> [].
Proof. by destruct l. Qed.

Lemma Forall_map_const {A B} (b : B) (l : list A) :
  Forall (fun x => x = b) (map (fun _ => b) l).
Proof. induction l; simpl; constructor; auto. Qed.

Lemma reduce_const (op : float -> float -> float) (what : string)
    (c : float) (a : ndarray float) :
  op c c = c -> flat a <> [] -> Forall (fun x => x = c) (flat a) ->
  reduce op what a = Ok c.
Proof.
  intros Hop Hne Hall. unfold reduce. destruct (flat a) as [|x xs]; [done|].
  inversion Hall as [|? ? -> Hxs]; subst. by rewrite fold_left_const.
Qed.

Lemma reduce_nonempty (op : float -> float -> float) (what : string)
    (a : ndarray float) :
  flat a <> [] -> exists v, reduce op what a = Ok v.
Proof. unfold reduce. destruct (flat a); [done|eauto]. Qed.

Lemma rescale_shape (log_data : ndarray float) (d_min d_max : float) :
  shape (rescale log_data d_min d_max) = shape log_data
  /\ length (flat (rescale log_data d_min d_max)) = length (flat log_data).
Proof.
  unfold rescale. destruct (SFltb _ _); simpl; by rewrite length_map.
Qed.

(** ** Range normalisation *)

(** C5: on a non-empty band, whatever its samples (finite, infinite or
    not-a-number) and whatever the logarithm computes, [normalize]
    returns (it does not raise) an array of the shape of the band whose
    values are integers between 0 and 255. *)
Theorem normalize_total (K : kernels) (data : ndarray float) :
  flat data <> [] ->
  exists img,
    normalize K data = Ok img
    /\ shape img = shape data
    /\ length (flat img) = length (flat data)
    /\ Forall (fun v => 0 <= v <= 255) (flat img).
Proof.
  intros Hne. unfold normalize.
  set (clean := amap nan_to_num data).
  assert (Hclean : flat clean <> []).
  { subst clean. simpl. by apply map_nonempty. }
  destruct (reduce_nonempty minimum "minimum" clean Hclean) as [lo Hlo].
  unfold np_min at 1. rewrite Hlo. simpl.
  set (log_data :=
         amap (fun x => log10 K (SF64add (SF64sub x lo) fone)) clean).
  assert (Hlog : flat log_data <> []).
  { subst log_data. simpl. by apply map_nonempty. }
  destruct (reduce_nonempty minimum "minimum" log_data Hlog) as [d_min Hmin].
  destruct (reduce_nonempty maximum "maximum" log_data Hlog) as [d_max Hmax].
  unfold np_min, np_max. rewrite Hmin, Hmax. simpl.
  eexists. split; [reflexivity|].
  destruct (rescale_shape log_data d_min d_max) as [Hsh Hlen].
  repeat split.
  - unfold shape in *. simpl. injection Hsh as -> ->. reflexivity.
  - simpl. rewrite length_map, Hlen. subst log_data clean. simpl.
    by rewrite !length_map.
  - simpl. apply astype_uint8_all.
Qed.

Lemma normalize_total_witness :
  exists img,
    normalize sample_kernels
      (mk_ndarray 2 2 [of_Z 10; of_Z 1000; S754_nan; S754_infinity false])
    = Ok img
    /\ shape img = (2%nat, 2%nat)
    /\ length (flat img) = 4%nat
    /\ Forall (fun v => 0 <= v <= 255) (flat img).
Proof.
  apply (normalize_total sample_kernels
           (mk_ndarray 2 2 [of_Z 10; of_Z 1000; S754_nan; S754_infinity false])).
  simpl. discriminate.
Defined.

Lemma SFeqb_true (x c : float) :
  SFeqb x c = true -> x = c \/ (is_zero x /\ is_zero c).
Proof.
  unfold SFeqb.
  destruct x as [s1|s1| |s1 m1 e1], c as [s2|s2| |s2 m2 e2]; simpl;
    try discriminate; try (destruct s1; discriminate);
    try (destruct s2; discriminate).
  - intros _. right. split; eexists; reflexivity.
  - destruct s1, s2; try discriminate; auto.
  - change (Pos.compare_cont Eq m1 m2) with (Pos.compare m1 m2).
    destruct s1, s2; try discriminate;
      destruct (Z.compare_spec e1 e2) as [->| |]; try discriminate;
      destruct (Pos.compare_spec m1 m2) as [->| |]; simpl;
      try discriminate; auto.
Qed.

(** a band with an outlier and an invalid sample: the invalid sample
    counts as 0 and is the darkest pixel, the outlier the brightest *)
Example normalize_outlier :
  normalize sample_kernels
    (mk_ndarray 2 2 [of_Z 10; of_Z 1000; S754_nan; of_Z 10])
  = Ok (mk_ndarray 2 2 [88; 255; 0; 88]).
Proof. vm_compute. reflexivity. Qed.

(** equal samples are one value throughout, or zeros of either sign *)
Lemma same_sample_cases (c : float) (l : list float) :
  Forall (fun x => same_sample x c) l ->
  Forall (fun x => x = c) l \/ Forall is_zero l.
Proof.
  intros H.
  assert (Hc : is_zero c \/ ~ is_zero c).
  { destruct c; [left; by eexists | right; intros [? [=]]..]. }
  destruct Hc as [Hz | Hnz].
  - right. eapply Forall_impl; [exact H|]. intros x [-> | He]; [done|].
    by destruct (SFeqb_true _ _ He) as [-> | [? _]].
  - left. eapply Forall_impl; [exact H|]. intros x [-> | He]; [done|].
    by destruct (SFeqb_true _ _ He) as [-> | [_ ?]].
Qed.

Lemma minimum_zero (a x : float) :
  is_zero a -> is_zero x -> is_zero (minimum a x).
Proof. intros Ha Hx. unfold minimum. by destruct (_ || _). Qed.

Lemma fold_minimum_zero (l : list float) (a : float) :
  is_zero a -> Forall is_zero l -> is_zero (fold_left minimum l a).
Proof.
  intros Ha Hl. revert a Ha.
  induction Hl as [|x l Hx _ IH]; intros a Ha; simpl; [done|].
  apply IH. by apply minimum_zero.
Qed.

(** line 53 on zeros: [0 - 0 + 1.0] is [1.0] whatever the signs *)
Lemma shift_zero (x lo : float) :
  is_zero x -> is_zero lo -> SF64add (SF64sub (nan_to_num x) lo) fone = fone.
Proof. intros [[] ->] [[] ->]; reflexivity. Qed.

Lemma map_pointwise_const {A B} (f : A -> B) (u : B) (l : list A) :
  Forall (fun x => f x = u) l -> map f l = map (fun _ => u) l.
Proof. induction 1 as [|x l Hx _ IH]; simpl; [done|]. by rewrite Hx, IH. Qed.

(** when line 53 gives the same value everywhere, the range of the
    logarithms is empty and the band is mapped to zeros *)
Lemma normalize_flat_log (K : kernels) (data : ndarray float) (lo u : float) :
  np_min (amap nan_to_num data) = Ok lo ->
  Forall (fun x => SF64add (SF64sub (nan_to_num x) lo) fone = u) (flat data) ->
  normalize K data = Ok (amap (fun _ => 0) data).
Proof.
  intros Hlo Hall. unfold normalize. rewrite Hlo. simpl.
  assert (Hne : flat data <> []).
  { intros Hnil. unfold np_min, reduce in Hlo. simpl in Hlo.
    by rewrite Hnil in Hlo. }
  set (log_data :=
         amap (fun x => log10 K (SF64add (SF64sub x lo) fone))
              (amap nan_to_num data)).
  assert (Hlog : flat log_data = map (fun _ => log10 K u) (flat data)).
  { subst log_data. simpl. rewrite map_map.
    apply map_pointwise_const.
    eapply Forall_impl; [exact Hall|]. by intros x ->. }
  assert (Hconst : Forall (fun x => x = log10 K u) (flat log_data)).
  { rewrite Hlog. apply Forall_map_const. }
  assert (Hlog_ne : flat log_data <> []).
  { rewrite Hlog. by apply map_nonempty. }
  unfold np_min, np_max.
  rewrite (reduce_const minimum _ (log10 K u)) by auto using minimum_idem.
  rewrite (reduce_const maximum _ (log10 K u)) by auto using maximum_idem.
  simpl. unfold rescale. rewrite SF64sub_diag_small.
  unfold zeros_like, amap. simpl. f_equal. f_equal.
  rewrite !map_map. reflexivity.
Qed.

(** C6: a non-empty band whose samples are all equal (one value
    throughout, or zeros of either sign) is mapped to the all-zero
    image of its shape, as an ordinary result, whatever the logarithm
    computes. *)
Theorem normalize_constant (K : kernels) (data : ndarray float) (c : float) :
  flat data <> [] ->
  Forall (fun x => same_sample x c) (flat data) ->
  normalize K data = Ok (amap (fun _ => 0) data).
Proof.
  intros Hne Hall.
  destruct (same_sample_cases c (flat data) Hall) as [Hc | Hz].
  - apply (normalize_flat_log K data (nan_to_num c)
             (SF64add (SF64sub (nan_to_num c) (nan_to_num c)) fone)).
    + apply reduce_const; [apply minimum_idem | by apply map_nonempty |].
      simpl. rewrite (map_const _ c) by done. apply Forall_map_const.
    + eapply Forall_impl; [exact Hc|]. by intros x ->.
  - destruct (flat data) as [|x xs] eqn:Hflat; [done|].
    inversion Hz as [|? ? Hx Hxs]; subst.
    assert (Hx' : is_zero (nan_to_num x)) by (destruct Hx as [s ->]; by exists s).
    assert (Hxs' : Forall is_zero (map nan_to_num xs)).
    { clear -Hxs. induction Hxs as [|y ys [s ->] _ IH]; simpl; constructor;
        [by exists s | done]. }
    pose proof (fold_minimum_zero _ _ Hx' Hxs') as Hlo.
    apply (normalize_flat_log K data
             (fold_left minimum (map nan_to_num xs) (nan_to_num x)) fone).
    + unfold np_min, reduce. simpl. by rewrite Hflat.
    + rewrite Hflat. eapply Forall_impl; [exact Hz|].
      intros y Hy. by apply shift_zero.
Qed.

Lemma normalize_constant_witness :
  normalize sample_kernels
    (mk_ndarray 2 3 [S754_zero false; S754_zero true; S754_zero false;
                     S754_zero true; S754_zero true; S754_zero false])
  = Ok (mk_ndarray 2 3 [0; 0; 0; 0; 0; 0]).
Proof.
  apply (normalize_constant sample_kernels
           (mk_ndarray 2 3 [S754_zero false; S754_zero true; S754_zero false;
                            S754_zero true; S754_zero true; S754_zero false])
           (S754_zero false)).
  - simpl. discriminate.
  - simpl. repeat constructor; right; reflexivity.
Defined.

(** a band of value 10 throughout *)
Example normalize_constant_ten :
  normalize sample_kernels (mk_ndarray 2 3 (repeat (of_Z 10) 6))
  = Ok (mk_ndarray 2 3 [0; 0; 0; 0; 0; 0]).
Proof. vm_compute. reflexivity. Qed.

(** ** Resampling *)

(** Pillow returns the image when asked for the size it has *)
Lemma Image_resize_same_size (K : kernels) (img : image) :
  Image_resize K img (im_size img) = Ok img.
Proof. unfold Image_resize. by rewrite bool_decide_eq_true_2. Qed.

(** in [_save_image] the image comes from an array and [resize_to] is
    the NumPy shape of the raster; the two coordinates are exchanged on
    the way, as Pillow expects *)
Lemma resample_fromarray (K : kernels) (a : ndarray Z) :
  resample K (fromarray a) (Some (shape a)) = Ok (fromarray a).
Proof. apply (Image_resize_same_size K (fromarray a)). Qed.

(** C7: resampling an image to the shape it already has (rows = its
    height, columns = its width) returns the image itself, whatever the
    interpolation kernel. *)
Theorem resample_same_shape (K : kernels) (img : image) :
  resample K img (Some (snd (im_size img), fst (im_size img))) = Ok img.
Proof.
  unfold resample. simpl. rewrite <- surjective_pairing.
  apply Image_resize_same_size.
Qed.

(** ** Persisting one band *)

Lemma append_inj_l (p a b : string) : p +:+ a = p +:+ b -> a = b.
Proof. induction p as [|c p IH]; simpl; [done|]. intros [=]. auto. Qed.

Lemma fits_png_distinct (prefix : string) :
  prefix +:+ ".fits" <> prefix +:+ ".png".
Proof. intros H. apply append_inj_l in H. discriminate. Qed.

(** [_save_image], case by case *)
Lemma _save_image_eq (K : kernels) (data : ndarray float) (prefix : string)
    (hd : option header) (rt : option (nat * nat)) (w : world) :
  _save_image K data prefix hd rt w =
    if bool_decide (prefix +:+ ".fits" ∈ denied w) then
      print ("Erro ao salvar: " +:+ permission_denied (prefix +:+ ".fits")) w
    else
      let w1 := set_files (<[prefix +:+ ".fits" := FitsFile [PrimaryHDU data hd]]>
                             (files w)) w in
      match render K data rt with
      | Raise e => print ("Erro ao salvar: " +:+ exn_str e) w1
      | Ok img =>
          if bool_decide (prefix +:+ ".png" ∈ denied w) then
            print ("Erro ao salvar: "
                   +:+ permission_denied (prefix +:+ ".png")) w1
          else (Ok tt, set_files (<[prefix +:+ ".png" := PngFile img]>
                                    (files w1)) w1)
      end.
Proof.
  unfold _save_image, try_except, bind, writeto, write_file, lift, Image_save.
  destruct (bool_decide (prefix +:+ ".fits" ∈ denied w)) eqn:Hf; [reflexivity|].
  cbn [denied set_files].
  destruct (render K data rt) as [img|e]; [|reflexivity].
  unfold write_file. cbn [denied set_files].
  destruct (bool_decide (prefix +:+ ".png" ∈ denied w)); reflexivity.
Qed.

(** [_save_image] returns normally in every case *)
Lemma _save_image_returns (K : kernels) (data : ndarray float)
    (prefix : string) (hd : option header) (rt : option (nat * nat))
    (w : world) :
  exists w', _save_image K data prefix hd rt w = (Ok tt, w').
Proof.
  rewrite _save_image_eq. unfold print, print_end.
  repeat case_match; eauto.
Qed.

(** C1, as stated, fails: when the FITS write raises, the PNG write is
    not attempted (the PNG path is writable and still absent
    afterwards), and [_save_image] returns normally, as it does on
    success. *)
Lemma save_image_fits_failure_skips_png :
  let r := _save_image sample_kernels sample_band "out/band"
             (Some sample_header) (Some (1%nat, 2%nat)) world_fits_denied in
  bool_decide ("out/band.png" ∈ denied world_fits_denied) = false
  /\ fst r = Ok tt
  /\ files (snd r) !! "out/band.png" = None
  /\ stdout (snd r)
     = ["Erro ao salvar: [Errno 13] Permission denied: 'out/band.fits'"
        +:+ newline].
Proof. vm_compute. auto. Qed.

(** C1, amended: [_save_image] returns normally in every case.  The
    FITS write comes first; when it raises nothing is written, the PNG
    write is not attempted and the console gets one line.  When it
    succeeds the FITS file stays on disk whatever happens next: the PNG
    is written if the image can be computed and its path is writable,
    and otherwise the console gets one line. *)
Theorem save_image_outcome (K : kernels) (data : ndarray float)
    (prefix : string) (hd : option header) (rt : option (nat * nat))
    (w : world) :
  exists w',
    _save_image K data prefix hd rt w = (Ok tt, w')
    /\ (prefix +:+ ".fits" ∈ denied w ->
        files w' = files w
        /\ stdout w' = stdout w ++
             ["Erro ao salvar: " +:+ permission_denied (prefix +:+ ".fits")
              +:+ newline])
    /\ (prefix +:+ ".fits" ∉ denied w ->
        files w' !! (prefix +:+ ".fits") = Some (FitsFile [PrimaryHDU data hd])
        /\ (forall img,
              render K data rt = Ok img -> prefix +:+ ".png" ∉ denied w ->
              files w' !! (prefix +:+ ".png") = Some (PngFile img)
              /\ stdout w' = stdout w)
        /\ (prefix +:+ ".png" ∈ denied w \/ (exists e, render K data rt = Raise e) ->
            files w' !! (prefix +:+ ".png") = files w !! (prefix +:+ ".png")
            /\ exists msg,
                 stdout w' = stdout w ++ ["Erro ao salvar: " +:+ msg +:+ newline])).
Proof.
  rewrite _save_image_eq.
  pose proof (fits_png_distinct prefix) as Hne.
  destruct (bool_decide (prefix +:+ ".fits" ∈ denied w)) eqn:Hf.
  - apply bool_decide_eq_true_1 in Hf.
    eexists. split; [reflexivity|]. split; [|done]. intros _. done.
  - apply bool_decide_eq_false_1 in Hf. cbv zeta.
    destruct (render K data rt) as [img|e] eqn:Hr.
    + destruct (bool_decide (prefix +:+ ".png" ∈ denied w)) eqn:Hp.
      * apply bool_decide_eq_true_1 in Hp.
        eexists. split; [reflexivity|]. split; [done|]. intros _.
        simpl. rewrite lookup_insert_eq. split; [done|]. split; [done|].
        intros _. rewrite lookup_insert_ne by done. eauto.
      * apply bool_decide_eq_false_1 in Hp.
        eexists. split; [reflexivity|]. split; [done|]. intros _.
        simpl. rewrite lookup_insert_ne by done.
        rewrite !lookup_insert_eq. split; [done|]. split.
        -- intros img' [= <-] _. done.
        -- intros [? | [e [=]]]. done.
    + eexists. split; [reflexivity|]. split; [done|]. intros _.
      simpl. rewrite lookup_insert_eq. split; [done|]. split; [done|].
      intros _. rewrite lookup_insert_ne by done. eauto.
Qed.

Lemma save_image_outcome_witness :
  exists w',
    _save_image sample_kernels sample_band "out/band" (Some sample_header)
      (Some (1%nat, 2%nat)) world_png_denied = (Ok tt, w')
    /\ files w' !! "out/band.fits"
       = Some (FitsFile [PrimaryHDU sample_band (Some sample_header)])
    /\ files w' !! "out/band.png" = None.
Proof.
  destruct (save_image_outcome sample_kernels sample_band "out/band"
              (Some sample_header) (Some (1%nat, 2%nat)) world_png_denied)
    as (w' & Hrun & _ & Hfits).
  exists w'. split; [exact Hrun|].
  destruct Hfits as (Hkept & _ & Hpng).
  - apply (bool_decide_eq_false_1 _). vm_compute. reflexivity.
  - split; [exact Hkept|].
    destruct Hpng as [Hpng _]; [|exact Hpng].
    left. apply (bool_decide_eq_true_1 _). vm_compute. reflexivity.
Defined.

(** ** Persisting the bands of a file *)

Lemma persisted_refl (hd : header) (w : world) : persisted hd w w.
Proof. repeat split; auto. Qed.

Lemma persisted_trans (hd : header) (w1 w2 w3 : world) :
  persisted hd w1 w2 -> persisted hd w2 w3 -> persisted hd w1 w3.
Proof.
  intros (Hd1 & He1 & H1) (Hd2 & He2 & H2).
  split; [congruence|]. split; [congruence|]. intros q.
  destruct (H2 q) as [-> | H]; [apply H1 | auto].
Qed.

Lemma persisted_is_Some (hd : header) (w w' : world) (q : string) :
  persisted hd w w' -> is_Some (files w !! q) -> is_Some (files w' !! q).
Proof.
  intros (_ & _ & H) Hq.
  destruct (H q) as [-> | [[band ->] | [img ->]]]; eauto.
Qed.

Lemma persisted_stdout (hd : header) (w : world) (o : list string) :
  persisted hd w (set_stdout o w).
Proof. repeat split; auto. Qed.

Lemma persisted_dirs (hd : header) (w : world) (d : gset string) :
  persisted hd w (set_dirs d w).
Proof. repeat split; auto. Qed.

Lemma persisted_insert_fits (hd : header) (w : world) (q : string)
    (band : ndarray float) :
  persisted hd w
    (set_files (<[q := FitsFile [mk_hdu hd (Some (Plane band))]]> (files w)) w).
Proof.
  split; [done|]. split; [done|]. intros q'. simpl.
  destruct (decide (q = q')) as [<- | Hne].
  - rewrite lookup_insert_eq. eauto.
  - rewrite lookup_insert_ne by done. auto.
Qed.

Lemma persisted_insert_png (hd : header) (w : world) (q : string)
    (img : image) :
  persisted hd w (set_files (<[q := PngFile img]> (files w)) w).
Proof.
  split; [done|]. split; [done|]. intros q'. simpl.
  destruct (decide (q = q')) as [<- | Hne].
  - rewrite lookup_insert_eq. eauto.
  - rewrite lookup_insert_ne by done. auto.
Qed.

(** one band: [_save_image] returns normally, only adds band files,
    and the FITS file is there afterwards when its path is writable *)
Lemma _save_image_persisted (K : kernels) (data : ndarray float)
    (prefix : string) (hd : header) (rt : option (nat * nat)) (w : world) :
  exists w',
    _save_image K data prefix (Some hd) rt w = (Ok tt, w')
    /\ persisted hd w w'
    /\ (prefix +:+ ".fits" ∉ denied w ->
        is_Some (files w' !! (prefix +:+ ".fits"))).
Proof.
  rewrite _save_image_eq. unfold print, print_end.
  pose proof (fits_png_distinct prefix) as Hne.
  destruct (bool_decide (prefix +:+ ".fits" ∈ denied w)) eqn:Hf.
  { apply bool_decide_eq_true_1 in Hf.
    eexists. split; [reflexivity|]. split; [apply persisted_stdout|done]. }
  cbv zeta.
  set (w1 := set_files _ w).
  assert (H1 : persisted hd w w1) by apply persisted_insert_fits.
  assert (Hin : is_Some (files w1 !! (prefix +:+ ".fits"))).
  { subst w1. simpl. rewrite lookup_insert_eq. eauto. }
  destruct (render K data rt) as [img|e].
  - destruct (bool_decide (prefix +:+ ".png" ∈ denied w)).
    + eexists. split; [reflexivity|]. split; [|done].
      eapply persisted_trans; [exact H1|apply persisted_stdout].
    + eexists. split; [reflexivity|]. split.
      * eapply persisted_trans; [exact H1|apply persisted_insert_png].
      * intros _.
        apply (persisted_is_Some hd w1); [apply persisted_insert_png|done].
  - eexists. split; [reflexivity|]. split; [|done].
    eapply persisted_trans; [exact H1|apply persisted_stdout].
Qed.

(** the loop over the detail levels returns normally, and the FITS
    file of each band of each level is there afterwards when its path
    is writable *)
Lemma save_details_persisted (K : kernels) (self : config) (folder : string)
    (hd : header) (sh : nat * nat) (levels : list details) :
  forall (i : nat) (w : world),
    exists w',
      save_details K self folder hd sh i levels w = (Ok tt, w')
      /\ persisted hd w w'
      /\ forall (j : nat) (o : string),
           (i <= j < i + length levels)%nat ->
           o = "_horizontal" \/ o = "_vertical" \/ o = "_diagonal" ->
           (base_path_of self folder j +:+ o) +:+ ".fits" ∉ denied w ->
           is_Some (files w' !! ((base_path_of self folder j +:+ o) +:+ ".fits")).
Proof.
  induction levels as [|[[h v] d] rest IH]; intros i w.
  - exists w. split; [done|]. split; [apply persisted_refl|].
    simpl. intros j o Hj. lia.
  - cbn [save_details]. unfold bind at 1 2 3.
    destruct (_save_image_persisted K h (base_path_of self folder i +:+ "_horizontal")
                hd (Some sh) w) as (w1 & -> & P1 & F1).
    destruct (_save_image_persisted K v (base_path_of self folder i +:+ "_vertical")
                hd (Some sh) w1) as (w2 & -> & P2 & F2).
    destruct (_save_image_persisted K d (base_path_of self folder i +:+ "_diagonal")
                hd (Some sh) w2) as (w3 & -> & P3 & F3).
    destruct (IH (S i) w3) as (w' & -> & P4 & F4).
    pose proof (persisted_trans _ _ _ _ P1 P2) as P12.
    pose proof (persisted_trans _ _ _ _ P12 P3) as P13.
    exists w'. split; [done|].
    split; [exact (persisted_trans _ _ _ _ P13 P4)|].
    intros j o Hj Ho Hden.
    destruct (decide (j = i)) as [-> | Hji].
    + destruct Ho as [-> | [-> | ->]].
      * apply (persisted_is_Some hd w1);
          [eauto using persisted_trans | by apply F1].
      * apply (persisted_is_Some hd w2); [eauto using persisted_trans|].
        apply F2. by rewrite (proj1 P1).
      * apply (persisted_is_Some hd w3); [done|].
        apply F3. by rewrite (proj1 P12).
    + apply F4; [simpl in Hj; lia | done | by rewrite (proj1 P13)].
Qed.

Lemma save_bands_persisted (K : kernels) (self : config)
    (folder name : string) (hd : header) (sh : nat * nat) (c : coeffs)
    (w : world) :
  exists w',
    save_bands K self folder name hd sh c w = (Ok tt, w')
    /\ persisted hd w w'
    /\ ((folder +:+ "/" +:+ name +:+ "_core_approx") +:+ ".fits" ∉ denied w ->
        is_Some (files w'
                 !! ((folder +:+ "/" +:+ name +:+ "_core_approx") +:+ ".fits")))
    /\ forall (j : nat) (o : string),
         (j < length (detail_levels c))%nat ->
         o = "_horizontal" \/ o = "_vertical" \/ o = "_diagonal" ->
         (base_path_of self folder j +:+ o) +:+ ".fits" ∉ denied w ->
         is_Some (files w' !! ((base_path_of self folder j +:+ o) +:+ ".fits")).
Proof.
  unfold save_bands, bind.
  destruct (_save_image_persisted K (approx c)
              (folder +:+ "/" +:+ name +:+ "_core_approx") hd (Some sh) w)
    as (w1 & -> & P1 & F1).
  destruct (save_details_persisted K self folder hd sh (detail_levels c) 0 w1)
    as (w' & -> & P2 & F2).
  exists w'. split; [done|].
  split; [exact (persisted_trans _ _ _ _ P1 P2)|]. split.
  - intros Hden. apply (persisted_is_Some hd w1); [done | by apply F1].
  - intros j o Hj Ho Hden. apply F2; [lia | done | by rewrite (proj1 P1)].
Qed.

(** ** Shapes of the decomposition *)

Lemma len_at_S (F n k : nat) :
  len_at F n (S k) = dwt_coeff_len (len_at F n k) F.
Proof. reflexivity. Qed.

Lemma len_at_S_r (F n k : nat) :
  len_at F n (S k) = len_at F (dwt_coeff_len n F) k.
Proof. unfold len_at. by rewrite Nat.iter_succ_r. Qed.

Lemma level_shape_S_r (F : nat) (sh : nat * nat) (k : nat) :
  level_shape F sh (S k) = level_shape F (level_shape F sh 1) k.
Proof. unfold level_shape. by rewrite !len_at_S_r. Qed.

(** a level within [dwt_max_level] leaves room for the filter at
    every step *)
Lemma dwt_max_level_bound (n F L : nat) :
  (1 <= L -> L <= dwt_max_level n F -> 2 <= F /\ (F - 1) * 2 ^ L <= n)%nat.
Proof.
  unfold dwt_max_level. intros HL Hle.
  destruct ((F <=? 1) || (n <? F - 1))%nat eqn:Hc; [lia|].
  apply orb_false_iff in Hc. destruct Hc as [HF Hn].
  apply Nat.leb_gt in HF. apply Nat.ltb_ge in Hn.
  split; [lia|].
  assert (Hq : (0 < n / (F - 1))%nat) by (apply Nat.div_str_pos; lia).
  pose proof (Nat.log2_spec _ Hq) as [Hlo _].
  assert ((2 ^ L <= 2 ^ Nat.log2 (n / (F - 1)))%nat)
    by (apply Nat.pow_le_mono_r; lia).
  pose proof (Nat.Div0.mul_div_le n (F - 1)).
  nia.
Qed.

Lemma len_at_lower (F n L k : nat) :
  (2 <= F -> (F - 1) * 2 ^ L <= n -> k <= L ->
   (F - 1) * 2 ^ (L - k) <= len_at F n k)%nat.
Proof.
  intros HF Hn. induction k as [|k IH]; intros Hk.
  - rewrite Nat.sub_0_r. exact Hn.
  - rewrite len_at_S. specialize (IH ltac:(lia)).
    replace (L - k)%nat with (S (L - S k)) in IH by lia.
    rewrite Nat.pow_succ_r' in IH.
    set (x := len_at F n k) in *. set (y := (2 ^ (L - S k))%nat) in *.
    assert ((0 < y)%nat)
      by (subst y; apply Nat.neq_0_lt_0, Nat.pow_nonzero; lia).
    unfold dwt_coeff_len. destruct (x =? 0)%nat eqn:Hx.
    + apply Nat.eqb_eq in Hx. nia.
    + apply Nat.div_le_lower_bound; [lia|]. nia.
Qed.

(** within the supported depth every step makes the axis strictly
    shorter *)
Lemma len_at_decreasing (F n L k : nat) :
  (2 <= F -> (F - 1) * 2 ^ L <= n -> k < L ->
   len_at F n (S k) < len_at F n k)%nat.
Proof.
  intros HF Hn Hk.
  pose proof (len_at_lower F n L k HF Hn ltac:(lia)) as Hlo.
  replace (L - k)%nat with (S (L - S k)) in Hlo by lia.
  rewrite Nat.pow_succ_r' in Hlo.
  rewrite len_at_S. set (x := len_at F n k) in *.
  set (y := (2 ^ (L - S k))%nat) in *.
  assert ((0 < y)%nat)
    by (subst y; apply Nat.neq_0_lt_0, Nat.pow_nonzero; lia).
  unfold dwt_coeff_len. destruct (x =? 0)%nat eqn:Hx.
  - apply Nat.eqb_eq in Hx. nia.
  - apply Nat.Div0.div_lt_upper_bound. nia.
Qed.

Lemma dwt2_shapes (K : kernels) (name : string) (F : nat) (a : ndarray float) :
  shape (fst (dwt2 K name F a)) = level_shape F (shape a) 1
  /\ band_shapes (level_shape F (shape a) 1) (snd (dwt2 K name F a)).
Proof. unfold dwt2. simpl. auto. Qed.

(** the loop of [wavedec2]: [n] steps append [n] triples, the [j]-th
    of them of the shape of level [j + 1] *)
Lemma wavedec2_loop_spec (K : kernels) (name : string) (F n : nat) :
  forall (a : ndarray float) (acc : list details),
    exists a' new,
      wavedec2_loop K name F n a acc = (a', acc ++ new)
      /\ shape a' = level_shape F (shape a) n
      /\ length new = n
      /\ forall j ds, new !! j = Some ds ->
           band_shapes (level_shape F (shape a) (S j)) ds.
Proof.
  induction n as [|n IH]; intros a acc.
  - exists a, []. simpl. rewrite app_nil_r.
    split; [done|]. split; [by destruct a|]. split; [done|].
    intros j ds H. by rewrite lookup_nil in H.
  - cbn [wavedec2_loop].
    destruct (dwt2_shapes K name F a) as [Ha1 Hds].
    destruct (dwt2 K name F a) as [a1 ds1]. simpl in Ha1, Hds.
    destruct (IH a1 (acc ++ [ds1])) as (a' & new & Hrun & Hsh & Hlen & Hnew).
    exists a', (ds1 :: new). cbn beta iota.
    split. { etransitivity; [exact Hrun|]. by rewrite <- app_assoc. }
    split; [|split; [simpl; by rewrite Hlen|]].
    + rewrite Hsh, Ha1. by rewrite <- level_shape_S_r.
    + intros [|j] ds Hj; simpl in Hj.
      * by injection Hj as <-.
      * specialize (Hnew j ds Hj). rewrite Ha1 in Hnew.
        by rewrite <- level_shape_S_r in Hnew.
Qed.

(** [wavedec2], case by case: the warning about a level that is too
    high is ignored by the filter of line 12 and leaves no trace *)
Lemma wavedec2_eq (K : kernels) (data : ndarray float) (name : string)
    (lvl : Z) (w : world) :
  wavedec2 K data name lvl w =
    match Wavelet name with
    | Raise e => (Raise e, w)
    | Ok F =>
        if lvl <? 0 then
          (Raise (ValueError ("Level value of " +:+ pretty lvl
                              +:+ " is too low . Minimum level is 0.")), w)
        else
          let r := wavedec2_loop K name F (Z.to_nat lvl) data [] in
          (Ok (mk_coeffs (fst r) (rev (snd r))), w)
    end.
Proof.
  unfold wavedec2, bind, lift. destruct (Wavelet name) as [F|e]; [|done].
  unfold _check_level, raise, ret, bind. destruct (lvl <? 0); [done|].
  destruct (_ <? lvl); simpl; by destruct wavedec2_loop.
Qed.

Lemma wavedec2_world (K : kernels) (data : ndarray float) (name : string)
    (lvl : Z) (w : world) :
  snd (wavedec2 K data name lvl w) = w.
Proof.
  rewrite wavedec2_eq. destruct (Wavelet name); [|done].
  by destruct (lvl <? 0).
Qed.

Lemma rev_lookup_Some {A} (l : list A) (i : nat) (x : A) :
  rev l !! i = Some x -> l !! (length l - S i)%nat = Some x /\ (i < length l)%nat.
Proof. rewrite rev_alt. apply reverse_lookup_Some. Qed.

(** a recognised wavelet and a level that is not negative: [wavedec2]
    returns [level] detail triples, coarsest first *)
Lemma wavedec2_returns (K : kernels) (data : ndarray float) (name : string)
    (F : nat) (lvl : Z) (w : world) :
  Wavelet name = Ok F -> 0 <= lvl ->
  exists c,
    wavedec2 K data name lvl w = (Ok c, w)
    /\ length (detail_levels c) = Z.to_nat lvl
    /\ shape (approx c) = level_shape F (shape data) (Z.to_nat lvl)
    /\ forall i ds, detail_levels c !! i = Some ds ->
         band_shapes (level_shape F (shape data) (Z.to_nat lvl - i)) ds.
Proof.
  intros HW Hl. rewrite wavedec2_eq, HW.
  destruct (Z.ltb_spec lvl 0) as [?|_]; [lia|].
  destruct (wavedec2_loop_spec K name F (Z.to_nat lvl) data [])
    as (a' & new & Hrun & Hsh & Hlen & Hnew).
  rewrite Hrun. simpl. eexists. split; [reflexivity|]. simpl.
  split; [by rewrite length_rev|]. split; [done|].
  intros i ds Hi. apply rev_lookup_Some in Hi as [Hi Hlt].
  specialize (Hnew _ _ Hi). rewrite Hlen in *.
  by replace (S (Z.to_nat lvl - S i)) with (Z.to_nat lvl - i)%nat in Hnew by lia.
Qed.

(** C9: for a recognised wavelet and a level between 1 and the depth
    the raster supports, [wavedec2] returns one approximation and
    exactly [level] detail triples; the triple at index [i] is the one
    labelled [level - i] by [process_file] and has the shape of that
    level; the approximation has the shape of the coarsest level; and
    each level is strictly smaller, in both directions, than the level
    below it (level 0 being the raster itself). *)
Theorem wavedec2_structure (K : kernels) (self : config)
    (data : ndarray float) (F : nat) (w : world) :
  Wavelet (wavelet self) = Ok F ->
  1 <= level self <= Z.of_nat (max_level F (shape data)) ->
  exists c,
    wavedec2 K data (wavelet self) (level self) w = (Ok c, w)
    /\ length (detail_levels c) = Z.to_nat (level self)
    /\ (forall i ds, detail_levels c !! i = Some ds ->
          band_shapes
            (level_shape F (shape data) (Z.to_nat (level_idx self i))) ds)
    /\ shape (approx c)
       = level_shape F (shape data) (Z.to_nat (level_idx self 0))
    /\ (forall k, (k < Z.to_nat (level self))%nat ->
          (fst (level_shape F (shape data) (S k))
           < fst (level_shape F (shape data) k))%nat
          /\ (snd (level_shape F (shape data) (S k))
              < snd (level_shape F (shape data) k))%nat).
Proof.
  intros HW [Hlo Hhi].
  destruct (wavedec2_returns K data (wavelet self) F (level self) w HW
              ltac:(lia)) as (c & Hrun & Hlen & Happrox & Hds).
  exists c. split; [done|]. split; [done|]. split; [|split].
  - intros i ds Hi. specialize (Hds i ds Hi). unfold level_idx.
    by replace (Z.to_nat (level self - Z.of_nat i))
      with (Z.to_nat (level self) - i)%nat by lia.
  - unfold level_idx. by rewrite Z.sub_0_r.
  - intros k Hk. unfold max_level in Hhi.
    set (L := Z.to_nat (level self)) in *.
    assert (HL : (1 <= L)%nat) by lia.
    destruct (dwt_max_level_bound (rows data) F L HL ltac:(simpl in *; lia))
      as [HF Hr].
    destruct (dwt_max_level_bound (cols data) F L HL ltac:(simpl in *; lia))
      as [_ Hc].
    unfold level_shape. simpl fst. simpl snd.
    split; eapply len_at_decreasing; eauto.
Qed.

Lemma wavedec2_structure_witness :
  exists c,
    wavedec2 sample_kernels scenario_raster
      "bior3.3" 2 world_input = (Ok c, world_input)
    /\ length (detail_levels c) = 2%nat
    /\ shape (approx c) = (21%nat, 21%nat).
Proof.
  destruct (wavedec2_structure sample_kernels
              (mk_config "DATA" "PROCESSED" "bior3.3" 2)
              scenario_raster 8 world_input)
    as (c & Hrun & Hlen & _ & Happrox & _).
  - reflexivity.
  - vm_compute. split; discriminate.
  - exists c. split; [exact Hrun|]. split; [exact Hlen|exact Happrox].
Defined.

(** ** Processing one file *)

Lemma load_world (p : path) (w : world) : snd (load p w) = w.
Proof.
  unfold load, bind, fits_open, lift, ret.
  destruct (files w !! path_str p) as [[hdul|img]|]; [|done..].
  destruct (hdul_index hdul 0) as [h0|e]; [|done].
  destruct (hdu_data h0); [done|].
  by destruct (hdul_index hdul 1).
Qed.

(** lines 78-80 on a file that has a first HDU *)
Lemma load_eq (p : path) (w : world) (h0 : hdu) (rest : list hdu) :
  files w !! path_str p = Some (FitsFile (h0 :: rest)) ->
  load p w =
    match hdu_data h0 with
    | Some d => (Ok (Some d, hdu_header h0), w)
    | None =>
        match rest with
        | h1 :: _ => (Ok (hdu_data h1, hdu_header h0), w)
        | [] => (Raise (IndexError "list index out of range"), w)
        end
    end.
Proof.
  intros Hf. unfold load, bind, fits_open, lift, ret. rewrite Hf. simpl.
  destruct (hdu_data h0); [done|]. by destruct rest.
Qed.

Lemma process_file_body_loaded (K : kernels) (self : config) (p : path)
    (w : world) (r : raster) (hd : header) (data : ndarray float) :
  load p w = (Ok (Some r, hd), w) ->
  first_plane r = Ok data ->
  process_file_body K self p w =
    bind (mkdir (galaxy_folder_of self p)) (fun _ =>
    bind (wavedec2 K data (wavelet self) (level self)) (fun c =>
    bind (save_bands K self (galaxy_folder_of self p) (stem p) hd
            (shape data) c)
         (fun _ => ret (true, "Sucesso")))) w.
Proof.
  intros Hl Hp. unfold process_file_body. unfold bind at 1. rewrite Hl.
  unfold bind at 1. unfold lift. rewrite Hp. reflexivity.
Qed.

Lemma mkdir_persisted (hd : header) (d : string) (w : world) :
  persisted hd w (snd (mkdir d w)).
Proof.
  unfold mkdir. destruct (bool_decide _); [apply persisted_refl|].
  destruct (files w !! d); [apply persisted_refl | apply persisted_dirs].
Qed.

(** once the decomposition is there, the rest of [process_file] is
    [save_bands] and the success pair *)
Lemma process_file_after_decomposition (K : kernels) (self : config)
    (p : path) (w w1 : world) (r : raster) (hd : header)
    (data : ndarray float) (c : coeffs) :
  load p w = (Ok (Some r, hd), w) ->
  first_plane r = Ok data ->
  mkdir (galaxy_folder_of self p) w = (Ok tt, w1) ->
  wavedec2 K data (wavelet self) (level self) w1 = (Ok c, w1) ->
  exists w',
    process_file K self p w = ((true, "Sucesso"), w')
    /\ save_bands K self (galaxy_folder_of self p) (stem p) hd (shape data) c w1
       = (Ok tt, w').
Proof.
  intros Hl Hp Hm Hd. unfold process_file.
  rewrite (process_file_body_loaded K self p w r hd data Hl Hp).
  unfold bind at 1. rewrite Hm. unfold bind at 1. rewrite Hd.
  unfold bind.
  destruct (save_bands_persisted K self (galaxy_folder_of self p) (stem p) hd
              (shape data) c w1) as (w' & Hs & _).
  rewrite Hs. simpl. eauto.
Qed.

(** whatever happens, [process_file] only adds band files carrying
    the header it loaded *)
Lemma process_file_persisted (K : kernels) (self : config) (p : path)
    (w : world) (data : option raster) (hd : header) :
  load p w = (Ok (data, hd), w) ->
  persisted hd w (snd (process_file K self p w)).
Proof.
  intros Hl. unfold process_file.
  destruct data as [r|].
  - destruct (first_plane r) as [a|e] eqn:Hp.
    + rewrite (process_file_body_loaded K self p w r hd a Hl Hp).
      unfold bind at 1.
      pose proof (mkdir_persisted hd (galaxy_folder_of self p) w) as Pm.
      destruct (mkdir (galaxy_folder_of self p) w) as [[[]|e] w1]; [|done].
      simpl in Pm. unfold bind at 1.
      pose proof (wavedec2_world K a (wavelet self) (level self) w1) as Hw.
      destruct (wavedec2 K a (wavelet self) (level self) w1) as [[c|e] w2];
        simpl in Hw; subst w2; [|done].
      unfold bind.
      destruct (save_bands_persisted K self (galaxy_folder_of self p) (stem p)
                  hd (shape a) c w1) as (w' & -> & Ps & _).
      simpl. eapply persisted_trans; eauto.
    + unfold process_file_body. unfold bind at 1. rewrite Hl.
      unfold bind at 1, lift. rewrite Hp. apply persisted_refl.
  - unfold process_file_body. unfold bind at 1. rewrite Hl.
    apply persisted_refl.
Qed.




(** ** Decomposition failures *)




(** ** Files without a raster *)

(** C8, as stated, fails on the message: the code answers
    ["FITS vazio"]. *)
Lemma no_raster_message :
  fst (process_file sample_kernels default_config sample_path world_no_raster)
  = (false, "FITS vazio")
  /\ "FITS vazio" <> "empty raster".
Proof. split; [vm_compute; reflexivity | discriminate]. Qed.

(** C8, amended: when neither the first nor the second HDU of the file
    holds data, [process_file] fails with exactly the message
    ["FITS vazio"], and changes nothing. *)
Theorem no_raster_fails (K : kernels) (self : config) (p : path) (w : world)
    (h0 h1 : hdu) (rest : list hdu) :
  files w !! path_str p = Some (FitsFile (h0 :: h1 :: rest)) ->
  hdu_data h0 = None ->
  hdu_data h1 = None ->
  process_file K self p w = ((false, "FITS vazio"), w).
Proof.
  intros Hf H0 H1. pose proof (load_eq p w h0 (h1 :: rest) Hf) as Hl.
  rewrite H0, H1 in Hl.
  unfold process_file, process_file_body. unfold bind. rewrite Hl. reflexivity.
Qed.

Lemma no_raster_fails_witness :
  process_file sample_kernels default_config sample_path world_no_raster
  = ((false, "FITS vazio"), world_no_raster).
Proof.
  apply (no_raster_fails sample_kernels default_config sample_path
           world_no_raster (mk_hdu sample_header None)
           (mk_hdu second_header None) []); reflexivity.
Defined.

(** a file whose only HDU has no data fails earlier, on [hdul[1]],
    with the message of that exception *)
Lemma single_empty_hdu_fails (K : kernels) (self : config) (p : path)
    (w : world) (h0 : hdu) :
  files w !! path_str p = Some (FitsFile [h0]) ->
  hdu_data h0 = None ->
  process_file K self p w = ((false, "list index out of range"), w).
Proof.
  intros Hf H0. pose proof (load_eq p w h0 [] Hf) as Hl. rewrite H0 in Hl.
  unfold process_file, process_file_body. unfold bind. rewrite Hl. reflexivity.
Qed.

(** ** The batch *)

Lemma batch_loop_cons (K : kernels) (self : config) (f : path)
    (rest : list path) (w : world) :
  batch_loop K self (f :: rest) w
  = batch_loop K self rest (after_file K self f w).
Proof.
  unfold after_file. simpl. unfold bind at 1. unfold print_end.
  destruct (process_file K self f _) as [[ok msg] w1].
  reflexivity.
Qed.

Lemma batch_loop_returns (K : kernels) (self : config) (fs : list path) :
  forall w, exists w', batch_loop K self fs w = (Ok tt, w').
Proof.
  induction fs as [|f fs IH]; intros w; [by exists w|].
  rewrite batch_loop_cons. apply IH.
Qed.

Lemma batch_loop_app (K : kernels) (self : config) (pre rest : list path) :
  forall w w1,
    batch_loop K self pre w = (Ok tt, w1) ->
    batch_loop K self (pre ++ rest) w = batch_loop K self rest w1.
Proof.
  induction pre as [|f pre IH]; intros w w1 H.
  - by injection H as <-.
  - rewrite <- app_comm_cons, batch_loop_cons. rewrite batch_loop_cons in H.
    by apply IH.
Qed.

(** C4: an exception raised in the body of [process_file] becomes the
    pair [(False, str(e))]; and wherever a file [f] stands in the
    batch, the loop gets to it whatever happened to the files before
    it, runs [process_file] on it, prints its message and goes on with
    the files after it. *)
Theorem batch_isolation (K : kernels) (self : config)
    (pre : list path) (f : path) (post : list path) (w : world) :
  (forall w0 e w', process_file_body K self f w0 = (Raise e, w') ->
     process_file K self f w0 = ((false, exn_str e), w'))
  /\ exists w1,
       batch_loop K self pre w = (Ok tt, w1)
       /\ batch_loop K self (pre ++ f :: post) w
          = batch_loop K self post (after_file K self f w1)
       /\ exists w2, batch_loop K self (pre ++ f :: post) w = (Ok tt, w2).
Proof.
  split.
  - intros w0 e w' H. unfold process_file. by rewrite H.
  - destruct (batch_loop_returns K self pre w) as [w1 H1].
    exists w1. split; [exact H1|]. split.
    + by rewrite (batch_loop_app K self pre (f :: post) w w1 H1),
        batch_loop_cons.
    + apply batch_loop_returns.
Qed.

Lemma batch_isolation_witness :
  process_file sample_kernels default_config (mk_path "DATA" "b" ".fits")
    world_batch
  = ((false, "[Errno 2] No such file or directory: 'DATA/b.fits'"),
     world_batch)
  /\ exists w2,
       batch_loop sample_kernels default_config
         [mk_path "DATA" "a" ".fits"; mk_path "DATA" "b" ".fits";
          mk_path "DATA" "c" ".fits"] world_batch = (Ok tt, w2).
Proof.
  destruct (batch_isolation sample_kernels default_config
              [mk_path "DATA" "a" ".fits"] (mk_path "DATA" "b" ".fits")
              [mk_path "DATA" "c" ".fits"] world_batch)
    as (Hcatch & w1 & _ & _ & Hall).
  split; [|exact Hall].
  apply (Hcatch world_batch
           (OSError "[Errno 2] No such file or directory: 'DATA/b.fits'")).
  vm_compute. reflexivity.
Defined.

(** the batch of three files of which the second cannot be opened:
    one line per file, the second with the failure, the others with
    success *)
Example batch_of_three :
  stdout (snd (run_batch sample_kernels default_config world_batch))
  = ["--- Processando 3 imagens com Escala Log e Resize ---" +:+ newline;
     "-> a.fits ";
     "[Sucesso]" +:+ newline;
     "-> b.fits ";
     "[[Errno 2] No such file or directory: 'DATA/b.fits']" +:+ newline;
     "-> c.fits ";
     "[Sucesso]" +:+ newline].
Proof. vm_compute. reflexivity. Qed.

(** ** Strings and file names *)

Lemma string_length_append (s t : string) :
  String.length (s +:+ t) = (String.length s + String.length t)%nat.
Proof.
  induction s as [|c s IH]; [done|].
  change (S (String.length (s +:+ t))
          = S (String.length s + String.length t)). by f_equal.
Qed.

Lemma string_append_assoc (s t u : string) : (s +:+ t) +:+ u = s +:+ (t +:+ u).
Proof.
  induction s as [|c s IH]; [done|].
  change (String c ((s +:+ t) +:+ u) = String c (s +:+ (t +:+ u))).
  by f_equal.
Qed.

(** two strings that end in suffixes of the same length agree on the
    suffixes and on what precedes them *)
Lemma append_eq_same_length (s1 s2 t1 t2 : string) :
  s1 +:+ t1 = s2 +:+ t2 -> String.length t1 = String.length t2 ->
  s1 = s2 /\ t1 = t2.
Proof.
  revert s2. induction s1 as [|c s1 IH]; intros [|c2 s2] H Hlen.
  - done.
  - apply (f_equal String.length) in H.
    change (String.length t1 = S (String.length (s2 +:+ t2))) in H.
    rewrite string_length_append in H. lia.
  - apply (f_equal String.length) in H.
    change (S (String.length (s1 +:+ t1)) = String.length t2) in H.
    rewrite string_length_append in H. lia.
  - injection H as -> H. destruct (IH s2 H Hlen) as [-> ->]. done.
Qed.

Lemma fits_png_apart (p q : string) : p +:+ ".fits" <> q +:+ ".png".
Proof.
  change ".fits" with ("." +:+ "fits"). rewrite <- string_append_assoc.
  intros H. apply append_eq_same_length in H as [_ [=]]. done.
Qed.

Lemma fits_inj (p q : string) : p +:+ ".fits" = q +:+ ".fits" -> p = q.
Proof. intros H. by apply append_eq_same_length in H as [-> _]. Qed.

Lemma png_inj (p q : string) : p +:+ ".png" = q +:+ ".png" -> p = q.
Proof. intros H. by apply append_eq_same_length in H as [-> _]. Qed.

Lemma orientation_apart (s s' o o' : string) :
  orientation o -> orientation o' -> s +:+ o = s' +:+ o' -> s = s' /\ o = o'.
Proof.
  intros [-> | [-> | ->]] [-> | [-> | ->]] H;
    try (by apply append_eq_same_length in H);
    exfalso;
    repeat match type of H with
    | context [?s +:+ "_horizontal"] =>
        change (s +:+ "_horizontal") with (s +:+ ("_h" +:+ "orizontal")) in H;
        rewrite <- (string_append_assoc s) in H
    end;
    apply append_eq_same_length in H as [_ [=]]; done.
Qed.

Lemma detail_prefix_inj (self : config) (folder : string) (i j : nat) (o o' : string) :
  orientation o -> orientation o' ->
  base_path_of self folder i +:+ o = base_path_of self folder j +:+ o' ->
  i = j /\ o = o'.
Proof.
  intros Ho Ho' H. unfold base_path_of in H.
  rewrite !string_append_assoc in H. apply append_inj_l in H.
  apply (append_inj_l "/"), (append_inj_l "L") in H.
  apply orientation_apart in H as [H ->]; [|done..].
  apply (inj pretty) in H. unfold level_idx in H. split; [lia|done].
Qed.

Lemma approx_detail_apart (self : config) (folder name : string) (i : nat) (o : string) :
  orientation o ->
  folder +:+ "/" +:+ name +:+ "_core_approx" <> base_path_of self folder i +:+ o.
Proof.
  intros Ho H.
  assert (exists o0, o = o0 +:+ "l") as [o0 ->].
  { destruct Ho as [-> | [-> | ->]];
      [by exists "_horizonta" | by exists "_vertica" | by exists "_diagona"]. }
  change "_core_approx" with ("_core_appro" +:+ "x") in H.
  rewrite <- !(string_append_assoc _ _ "x") in H.
  rewrite <- !(string_append_assoc _ _ "l") in H.
  apply append_eq_same_length in H as [_ [=]]. done.
Qed.

(** ** More on the range normalisation *)

Lemma nan_to_num_idem (x : float) : nan_to_num (nan_to_num x) = nan_to_num x.
Proof. by destruct x. Qed.

(** X1: the image of a band is the image of the sanitised band: a
    sample that is not a number is drawn as the sample 0.0, an infinite
    one as the largest finite value of its sign. *)
Theorem normalize_sanitised (K : kernels) (data : ndarray float) :
  normalize K (amap nan_to_num data) = normalize K data.
Proof.
  unfold normalize.
  assert (H : amap nan_to_num (amap nan_to_num data) = amap nan_to_num data).
  { unfold amap. simpl. f_equal. rewrite map_map. apply map_ext.
    apply nan_to_num_idem. }
  by rewrite H.
Qed.

Lemma minimum_cases (a x : float) : minimum a x = a \/ minimum a x = x.
Proof. unfold minimum. destruct (_ || _); auto. Qed.
Lemma maximum_cases (a x : float) : maximum a x = a \/ maximum a x = x.
Proof. unfold maximum. destruct (_ || _); auto. Qed.

Lemma fold_left_In (op : float -> float -> float) (l : list float) (a : float) :
  (forall a x, op a x = a \/ op a x = x) ->
  In (fold_left op l a) (a :: l).
Proof.
  intros Hop. revert a. induction l as [|x l IH]; intros a; simpl; [auto|].
  destruct (IH (op a x)) as [H | H]; [|auto].
  rewrite <- H. destruct (Hop a x) as [-> | ->]; auto.
Qed.

Lemma reduce_In (op : float -> float -> float) (what : string) (a : ndarray float) (v : float) :
  (forall a x, op a x = a \/ op a x = x) ->
  reduce op what a = Ok v -> In v (flat a).
Proof.
  intros Hop. unfold reduce. destruct (flat a) as [|x xs]; [done|].
  intros [= <-]. by apply fold_left_In.
Qed.

(** the sample of least logarithm is drawn black *)
Lemma darkest_pixel (d r : float) :
  SFltb f1em6 r = true ->
  astype_uint8 (SF64mul (SF64div (SF64sub d d) r) f255) = 0.
Proof.
  intros Hr.
  destruct r as [s|[]| |[] m e]; try discriminate;
    destruct (SF64sub_diag d) as [-> | ->]; reflexivity.
Qed.

Lemma SF64div_diag (s : bool) (m : positive) (e : Z) :
  SF64div (S754_finite s m e) (S754_finite s m e) = fone.
Proof.
  unfold SF64div, SFdiv, SFdiv_core_binary.
  rewrite !Z.sub_diag.
  change (Z.min (fexp prec emax 0) 0) with (-53).
  change (0 - -53) with 53.
  cbv zeta. cbv iota beta.
  assert (Hd : Z.div_eucl (Z.shiftl (Z.pos m) 53) (Z.pos m) = (2 ^ 53, 0)).
  { pose proof (Z.div_eucl_eq (Z.shiftl (Z.pos m) 53) (Z.pos m) ltac:(done)) as Heq.
    pose proof (Z.mod_pos_bound (Z.shiftl (Z.pos m) 53) (Z.pos m) ltac:(lia)) as Hb.
    unfold Z.modulo in Hb.
    destruct (Z.div_eucl (Z.shiftl (Z.pos m) 53) (Z.pos m)) as [q r'].
    rewrite Z.shiftl_mul_pow2 in Heq by lia.
    set (P := 2 ^ 53) in *.
    assert (q = P /\ r' = 0) as [-> ->]; [|done].
    assert (Z.pos m * (P - q) = r') by lia.
    assert (P - q = 0) by nia. split; nia. }
  rewrite Hd. unfold new_location.
  destruct s, (Z.even (Z.pos m)); reflexivity.
Qed.

Lemma normalize_eq (K : kernels) (data : ndarray float) :
  normalize K data =
    rbind (log_data_of K data) (fun ld =>
    rbind (np_min ld) (fun d_min =>
    rbind (np_max ld) (fun d_max =>
    Ok (amap astype_uint8 (rescale ld d_min d_max))))).
Proof.
  unfold normalize, log_data_of.
  by destruct (np_min (amap nan_to_num data)).
Qed.

Lemma log_data_of_nonempty (K : kernels) (data : ndarray float) :
  flat data <> [] ->
  exists ld, log_data_of K data = Ok ld /\ flat ld <> [].
Proof.
  intros Hne. unfold log_data_of.
  destruct (reduce_nonempty minimum "minimum" (amap nan_to_num data))
    as [lo Hlo]; [by apply map_nonempty|].
  unfold np_min. rewrite Hlo. simpl. eexists. split; [done|].
  simpl. by apply map_nonempty, map_nonempty.
Qed.

(** X2: the image of a non-empty band always has a pixel of value 0:
    the sample of least logarithm is drawn black when the range is
    stretched, and the whole image is black otherwise. *)
Theorem normalize_has_black (K : kernels) (data : ndarray float) :
  flat data <> [] ->
  exists img, normalize K data = Ok img /\ In 0 (flat img).
Proof.
  intros Hne. rewrite normalize_eq.
  destruct (log_data_of_nonempty K data Hne) as (ld & -> & Hld). simpl.
  destruct (reduce_nonempty minimum "minimum" ld Hld) as [d_min Hmin].
  destruct (reduce_nonempty maximum "maximum" ld Hld) as [d_max Hmax].
  unfold np_min, np_max. rewrite Hmin, Hmax. simpl.
  eexists. split; [done|]. simpl. unfold rescale.
  destruct (SFltb f1em6 (SF64sub d_max d_min)) eqn:Hr.
  - simpl. rewrite map_map. apply in_map_iff. exists d_min. split.
    + by apply darkest_pixel.
    + apply (reduce_In minimum "minimum"); [apply minimum_cases|done].
  - simpl. rewrite map_map. destruct (flat ld) as [|x xs]; [done|].
    simpl. by left.
Qed.

Lemma normalize_has_black_witness :
  exists img, normalize sample_kernels sample_band = Ok img /\ In 0 (flat img).
Proof.
  apply (normalize_has_black sample_kernels sample_band). simpl. discriminate.
Defined.

(** X3: when the range of the logarithms exceeds [1e-6] and is
    finite, the image has a pixel of value 255: the sample of greatest
    logarithm is drawn white. *)
Theorem normalize_has_white (K : kernels) (data : ndarray float) (r : float) :
  log_range K data = Ok r ->
  SFltb f1em6 r = true ->
  is_finite r ->
  exists img, normalize K data = Ok img /\ In 255 (flat img).
Proof.
  intros Hrange Hr Hfin. rewrite normalize_eq. unfold log_range in Hrange.
  destruct (log_data_of K data) as [ld|]; [|done]. simpl in *.
  destruct (np_min ld) as [d_min|]; [|done]. simpl in *.
  destruct (np_max ld) as [d_max|] eqn:Hmax; [|done]. simpl in *.
  injection Hrange as <-.
  eexists. split; [done|]. simpl. unfold rescale. rewrite Hr. simpl.
  rewrite map_map. apply in_map_iff. exists d_max. split.
  - destruct (SF64sub d_max d_min) as [| | |s m e]; try done.
    by rewrite SF64div_diag.
  - apply (reduce_In maximum "maximum"); [apply maximum_cases|done].
Qed.

Lemma normalize_has_white_witness :
  exists img,
    normalize sample_kernels sample_band = Ok img /\ In 255 (flat img).
Proof.
  apply (normalize_has_white sample_kernels sample_band
           ltac:(let r := eval vm_compute in
                   (match log_range sample_kernels sample_band with
                    | Ok r => r
                    | Raise _ => fzero
                    end) in exact r)).
  - vm_compute. reflexivity.
  - vm_compute. reflexivity.
  - exact I.
Defined.

(** ** The files of the bands *)

Lemma save_details_save_all (K : kernels) (self : config) (folder : string)
    (hd : header) (sh : nat * nat) (levels : list details) :
  forall i w,
    save_details K self folder hd sh i levels w
    = save_all K hd sh (details_entries self folder i levels) w.
Proof.
  induction levels as [|[[h v] d] rest IH]; intros i w; [done|].
  cbn [save_details details_entries details_entries_one app save_all].
  unfold bind.
  destruct (_save_image K h _ _ _ w) as [[[]|e] w1]; [|done].
  destruct (_save_image K v _ _ _ w1) as [[[]|e] w2]; [|done].
  destruct (_save_image K d _ _ _ w2) as [[[]|e] w3]; [|done].
  apply IH.
Qed.

Lemma save_bands_save_all (K : kernels) (self : config) (folder name : string)
    (hd : header) (sh : nat * nat) (c : coeffs) (w : world) :
  save_bands K self folder name hd sh c w
  = save_all K hd sh (band_entries self folder name c) w.
Proof.
  unfold save_bands, band_entries. cbn [save_all]. unfold bind.
  destruct (_save_image K (approx c) _ _ _ w) as [[[]|e] w1]; [|done].
  apply save_details_save_all.
Qed.

(** what one call leaves at its two paths and everywhere else *)
Lemma _save_image_effect (K : kernels) (data : ndarray float) (prefix : string)
    (hd : header) (rt : option (nat * nat)) (w : world) :
  exists w',
    _save_image K data prefix (Some hd) rt w = (Ok tt, w')
    /\ denied w' = denied w
    /\ (forall q, q <> prefix +:+ ".fits" -> q <> prefix +:+ ".png" ->
          files w' !! q = files w !! q)
    /\ (prefix +:+ ".fits" ∉ denied w ->
        files w' !! (prefix +:+ ".fits")
        = Some (FitsFile [mk_hdu hd (Some (Plane data))]))
    /\ (forall img,
          prefix +:+ ".fits" ∉ denied w -> prefix +:+ ".png" ∉ denied w ->
          render K data rt = Ok img ->
          files w' !! (prefix +:+ ".png") = Some (PngFile img)
          /\ stdout w' = stdout w).
Proof.
  rewrite _save_image_eq. unfold print, print_end.
  pose proof (fits_png_distinct prefix) as Hne.
  destruct (bool_decide (prefix +:+ ".fits" ∈ denied w)) eqn:Hf.
  { apply bool_decide_eq_true_1 in Hf. eexists. split; [done|]. simpl.
    repeat split; try done. }
  apply bool_decide_eq_false_1 in Hf. cbv zeta.
  destruct (render K data rt) as [img|e].
  - destruct (bool_decide (prefix +:+ ".png" ∈ denied w)) eqn:Hp.
    + apply bool_decide_eq_true_1 in Hp. eexists. split; [done|]. simpl.
      split; [done|]. split; [|split].
      * intros q H1 H2. by rewrite lookup_insert_ne.
      * intros _. by rewrite lookup_insert_eq.
      * done.
    + eexists. split; [done|]. simpl. split; [done|]. split; [|split].
      * intros q H1 H2. by rewrite !lookup_insert_ne.
      * intros _. rewrite lookup_insert_ne by done. by rewrite lookup_insert_eq.
      * intros img' _ _ [= <-]. by rewrite lookup_insert_eq.
  - eexists. split; [done|]. simpl. split; [done|]. split; [|split].
    + intros q H1 H2. by rewrite lookup_insert_ne.
    + intros _. by rewrite lookup_insert_eq.
    + done.
Qed.

Lemma save_all_effect (K : kernels) (hd : header) (sh : nat * nat)
    (l : list (string * ndarray float)) :
  NoDup (map fst l) ->
  forall w,
    exists w',
      save_all K hd sh l w = (Ok tt, w')
      /\ denied w' = denied w
      /\ (forall q,
            (forall p b, In (p, b) l ->
               q <> p +:+ ".fits" /\ q <> p +:+ ".png") ->
            files w' !! q = files w !! q)
      /\ (forall p b, In (p, b) l -> p +:+ ".fits" ∉ denied w ->
            files w' !! (p +:+ ".fits")
            = Some (FitsFile [mk_hdu hd (Some (Plane b))]))
      /\ (forall p b img, In (p, b) l ->
            p +:+ ".fits" ∉ denied w -> p +:+ ".png" ∉ denied w ->
            render K b (Some sh) = Ok img ->
            files w' !! (p +:+ ".png") = Some (PngFile img))
      /\ ((forall p b, In (p, b) l ->
             (p +:+ ".fits" ∉ denied w) /\ (p +:+ ".png" ∉ denied w)
             /\ exists img, render K b (Some sh) = Ok img) ->
          stdout w' = stdout w).
Proof.
  induction l as [|[p b] rest IH]; intros Hnd w.
  - exists w. split; [done|]. split; [done|]. split; [done|].
    split; [intros ? ? []|]. split; [intros ? ? ? []|done].
  - simpl in Hnd. apply NoDup_cons in Hnd as [Hp Hnd].
    cbn [save_all]. unfold bind.
    destruct (_save_image_effect K b p hd (Some sh) w)
      as (w1 & -> & Hd1 & Hframe1 & Hfits1 & Hpng1).
    destruct (IH Hnd w1) as (w' & -> & Hd & Hframe & Hfits & Hpng & Hout).
    assert (Hapart : forall p' b', In (p', b') rest ->
              forall q, q = p +:+ ".fits" \/ q = p +:+ ".png" ->
              q <> p' +:+ ".fits" /\ q <> p' +:+ ".png").
    { intros p' b' Hin q Hq.
      assert (p <> p').
      { intros ->. apply Hp, list_elem_of_In.
        change p' with (fst (p', b')). by apply in_map. }
      destruct Hq as [-> | ->]; split; intros H'.
      - by apply fits_inj in H'.
      - by apply fits_png_apart in H'.
      - symmetry in H'. by apply fits_png_apart in H'.
      - by apply png_inj in H'. }
    exists w'. split; [done|]. split; [congruence|].
    split; [|split; [|split]].
    + intros q Hq. rewrite Hframe.
      * apply Hframe1; apply (Hq p b); by left.
      * intros p' b' Hin. apply (Hq p' b'). by right.
    + intros p' b' [[= <- <-] | Hin] Hden.
      * rewrite Hframe; [by apply Hfits1|].
        intros p' b' Hin. apply (Hapart p' b' Hin). by left.
      * apply (Hfits p' b' Hin). by rewrite Hd1.
    + intros p' b' img [[= <- <-] | Hin] Hden Hden' Hr.
      * rewrite Hframe; [by apply Hpng1|].
        intros p' b' Hin. apply (Hapart p' b' Hin). by right.
      * apply (Hpng p' b' img Hin); by rewrite ?Hd1.
    + intros Hall. rewrite Hout.
      * destruct (Hall p b) as (H1 & H2 & img & Hr); [by left|].
        by apply (Hpng1 img).
      * intros p' b' Hin. rewrite Hd1. apply Hall. by right.
Qed.

Lemma details_entries_In (self : config) (folder : string)
    (levels : list details) :
  forall i p b,
    In (p, b) (details_entries self folder i levels) ->
    exists j o, (i <= j)%nat /\ orientation o
                /\ p = base_path_of self folder j +:+ o.
Proof.
  induction levels as [|[[h v] d] rest IH]; intros i p b Hin; [done|].
  cbn [details_entries details_entries_one] in Hin.
  apply in_app_iff in Hin as [Hin | Hin].
  - exists i. unfold orientation.
    destruct Hin as [[= <- _] | [[= <- _] | [[= <- _] | []]]]; eauto 10.
  - destruct (IH _ _ _ Hin) as (j & o & Hj & Ho & ->).
    exists j, o. split; [lia|done].
Qed.

Lemma details_entries_NoDup (self : config) (folder : string)
    (levels : list details) :
  forall i, NoDup (map fst (details_entries self folder i levels)).
Proof.
  induction levels as [|[[h v] d] rest IH]; intros i; [constructor|].
  cbn [details_entries details_entries_one app map fst].
  assert (Hrest : forall o, orientation o ->
            base_path_of self folder i +:+ o
            ∉ map fst (details_entries self folder (S i) rest)).
  { intros o Ho Hin. apply list_elem_of_In, in_map_iff in Hin.
    destruct Hin as ([p b] & Hp & Hin). simpl in Hp. subst p.
    destruct (details_entries_In _ _ _ _ _ _ Hin) as (j & o' & Hj & Ho' & Heq).
    symmetry in Heq. apply detail_prefix_inj in Heq as [-> _]; [lia|done..]. }
  assert (Hne : forall o o', orientation o -> orientation o' -> o <> o' ->
            base_path_of self folder i +:+ o
            <> base_path_of self folder i +:+ o').
  { intros o o' Ho Ho' Hoo Heq.
    by apply detail_prefix_inj in Heq as [_ ?]. }
  unfold orientation in *.
  repeat (apply NoDup_cons; split); [..|apply IH].
  - rewrite !not_elem_of_cons. split; [|split]; [apply Hne..|apply Hrest]; auto.
  - rewrite !not_elem_of_cons. split; [apply Hne|apply Hrest]; auto.
  - apply Hrest. auto.
Qed.

Lemma band_entries_NoDup (self : config) (folder name : string) (c : coeffs) :
  NoDup (map fst (band_entries self folder name c)).
Proof.
  unfold band_entries. simpl. apply NoDup_cons. split.
  - intros Hin. apply list_elem_of_In, in_map_iff in Hin.
    destruct Hin as ([p b] & Hp & Hin). simpl in Hp. subst p.
    destruct (details_entries_In _ _ _ _ _ _ Hin) as (j & o & _ & Ho & Heq).
    by apply approx_detail_apart in Heq.
  - apply details_entries_NoDup.
Qed.

Lemma details_entries_lookup (self : config) (folder : string)
    (levels : list details) :
  forall i j h v d,
    levels !! j = Some (h, v, d) ->
    In (base_path_of self folder (i + j) +:+ "_horizontal", h)
       (details_entries self folder i levels)
    /\ In (base_path_of self folder (i + j) +:+ "_vertical", v)
          (details_entries self folder i levels)
    /\ In (base_path_of self folder (i + j) +:+ "_diagonal", d)
          (details_entries self folder i levels).
Proof.
  induction levels as [|[[h0 v0] d0] rest IH]; intros i j h v d Hj; [done|].
  cbn [details_entries details_entries_one].
  destruct j as [|j]; simpl in Hj.
  - injection Hj as -> -> ->. rewrite Nat.add_0_r.
    repeat split; apply in_app_iff; left; simpl; auto.
  - destruct (IH (S i) j h v d Hj) as (H1 & H2 & H3).
    replace (i + S j)%nat with (S i + j)%nat by lia.
    repeat split; apply in_app_iff; by right.
Qed.

Lemma process_file_effect (K : kernels) (self : config) (p : path)
    (w w1 : world) (r : raster) (hd : header) (data : ndarray float)
    (c : coeffs) :
  load p w = (Ok (Some r, hd), w) ->
  first_plane r = Ok data ->
  mkdir (galaxy_folder_of self p) w = (Ok tt, w1) ->
  wavedec2 K data (wavelet self) (level self) w1 = (Ok c, w1) ->
  exists w',
    process_file K self p w = ((true, "Sucesso"), w')
    /\ save_all K hd (shape data)
         (band_entries self (galaxy_folder_of self p) (stem p) c) w1
       = (Ok tt, w')
    /\ denied w1 = denied w /\ stdout w1 = stdout w.
Proof.
  intros Hl Hp Hm Hd.
  destruct (process_file_after_decomposition K self p w w1 r hd data c
              Hl Hp Hm Hd) as (w' & Hrun & Hsave).
  exists w'. split; [done|]. rewrite <- save_bands_save_all. split; [done|].
  unfold mkdir in Hm. destruct (bool_decide _); [done|].
  destruct (files w !! _); [done|]. by injection Hm as <-.
Qed.

(** X6: once a file is loaded, its folder created and the
    decomposition computed, every band whose FITS path is writable ends
    up on disk under its own name as the raw band (not the normalised
    one) with the header of the file, and its PNG, when it can be
    computed and written, is the image of that band resized to the
    shape of the raster; no later band overwrites it. *)
Theorem band_contents (K : kernels) (self : config) (p : path)
    (w w1 : world) (r : raster) (hd : header) (data : ndarray float)
    (c : coeffs) :
  load p w = (Ok (Some r, hd), w) ->
  first_plane r = Ok data ->
  mkdir (galaxy_folder_of self p) w = (Ok tt, w1) ->
  wavedec2 K data (wavelet self) (level self) w1 = (Ok c, w1) ->
  exists w',
    process_file K self p w = ((true, "Sucesso"), w')
    /\ forall prefix band,
         In (prefix, band)
            (band_entries self (galaxy_folder_of self p) (stem p) c) ->
         prefix +:+ ".fits" ∉ denied w ->
         files w' !! (prefix +:+ ".fits")
         = Some (FitsFile [mk_hdu hd (Some (Plane band))])
         /\ forall img,
              prefix +:+ ".png" ∉ denied w ->
              render K band (Some (shape data)) = Ok img ->
              files w' !! (prefix +:+ ".png") = Some (PngFile img).
Proof.
  intros Hl Hp Hm Hd.
  destruct (process_file_effect K self p w w1 r hd data c Hl Hp Hm Hd)
    as (w' & Hrun & Hsave & Hden & _).
  exists w'. split; [done|]. intros prefix band Hin Hfits.
  destruct (save_all_effect K hd (shape data) _
              (band_entries_NoDup self (galaxy_folder_of self p) (stem p) c)
              w1) as (w'' & Hs & _ & _ & Hf & Hpng & _).
  rewrite Hsave in Hs. injection Hs as <-. rewrite Hden in Hf, Hpng.
  split; [by apply (Hf prefix band)|].
  intros img Hp' Hr. by apply (Hpng prefix band img).
Qed.

Lemma band_contents_witness :
  exists w' band,
    process_file sample_kernels default_config sample_path world_input
    = ((true, "Sucesso"), w')
    /\ files w' !! ("PROCESSED/g/g_core_approx" +:+ ".fits")
       = Some (FitsFile [mk_hdu sample_header (Some (Plane band))]).
Proof.
  pose (c := ltac:(let c := eval vm_compute in
                (match fst (wavedec2 sample_kernels sample_raster
                              "bior3.3" 4 world_input) with
                 | Ok c => c
                 | Raise _ => mk_coeffs sample_raster []
                 end) in exact c)).
  destruct (band_contents sample_kernels default_config sample_path
              world_input (set_dirs {["PROCESSED/g"]} world_input)
              (Plane sample_raster) sample_header sample_raster c)
    as (w' & Hrun & Hall).
  - vm_compute. reflexivity.
  - reflexivity.
  - vm_compute. reflexivity.
  - vm_compute. reflexivity.
  - exists w', (approx c). split; [exact Hrun|].
    destruct (Hall "PROCESSED/g/g_core_approx" (approx c)) as [Hf _].
    + left. reflexivity.
    + apply (bool_decide_eq_false_1 _). vm_compute. reflexivity.
    + exact Hf.
Defined.

(** X5: two different bands of a file never share a file name: their
    FITS paths differ, their PNG paths differ, and the FITS path of one
    is not the PNG path of the other. *)
Theorem band_paths_distinct (self : config) (folder name : string) (c : coeffs)
    (i j : nat) (p q : string) (a b : ndarray float) :
  band_entries self folder name c !! i = Some (p, a) ->
  band_entries self folder name c !! j = Some (q, b) ->
  i <> j ->
  p +:+ ".fits" <> q +:+ ".fits" /\ p +:+ ".png" <> q +:+ ".png"
  /\ p +:+ ".fits" <> q +:+ ".png" /\ p +:+ ".png" <> q +:+ ".fits".
Proof.
  intros Hi Hj Hij.
  assert (Hpq : p <> q).
  { intros ->. apply Hij.
    apply (NoDup_lookup _ i j q (band_entries_NoDup self folder name c)).
    - change (map fst (band_entries self folder name c))
        with (fst <$> band_entries self folder name c).
      by rewrite list_lookup_fmap, Hi.
    - change (map fst (band_entries self folder name c))
        with (fst <$> band_entries self folder name c).
      by rewrite list_lookup_fmap, Hj. }
  split; [|split; [|split]]; intros H.
  - by apply fits_inj in H.
  - by apply png_inj in H.
  - by apply fits_png_apart in H.
  - symmetry in H. by apply fits_png_apart in H.
Qed.

Lemma band_paths_distinct_witness :
  "PROCESSED/g/g_core_approx" +:+ ".fits"
  <> "PROCESSED/g/L4_horizontal" +:+ ".fits"
  /\ "PROCESSED/g/g_core_approx" +:+ ".png"
     <> "PROCESSED/g/L4_horizontal" +:+ ".png"
  /\ "PROCESSED/g/g_core_approx" +:+ ".fits"
     <> "PROCESSED/g/L4_horizontal" +:+ ".png"
  /\ "PROCESSED/g/g_core_approx" +:+ ".png"
     <> "PROCESSED/g/L4_horizontal" +:+ ".fits".
Proof.
  apply (band_paths_distinct default_config "PROCESSED/g" "g" one_level
           0 1 "PROCESSED/g/g_core_approx" "PROCESSED/g/L4_horizontal"
           sample_band sample_band).
  - vm_compute. reflexivity.
  - vm_compute. reflexivity.
  - lia.
Defined.

(** ** Bands are never empty *)











(** X4: an image that [_save_image] computes for a band has the width
    and the height of [resize_to] (its columns and its rows), whatever
    the shape of the band. *)
Theorem render_size (K : kernels) (data : ndarray float) (sh : nat * nat)
    (img : image) :
  render K data (Some sh) = Ok img -> im_size img = (snd sh, fst sh).
Proof.
  unfold render. destruct (normalize K data) as [r|]; [|done]. simpl.
  unfold Image_resize.
  destruct (bool_decide (im_size (fromarray r) = (snd sh, fst sh))) eqn:Hb.
  - apply bool_decide_eq_true_1 in Hb. by intros [= <-].
  - destruct (_ || _)%bool; [done|]. by intros [= <-].
Qed.

Lemma render_size_witness :
  exists img,
    render sample_kernels sample_band (Some (4%nat, 6%nat)) = Ok img
    /\ im_size img = (6%nat, 4%nat).
Proof.
  pose (img := ltac:(let v := eval vm_compute in
                  (match render sample_kernels sample_band
                           (Some (4%nat, 6%nat)) with
                   | Ok i => i
                   | Raise _ => mk_image (0%nat, 0%nat) []
                   end) in exact v)).
  assert (H : render sample_kernels sample_band (Some (4%nat, 6%nat)) = Ok img)
    by (vm_compute; reflexivity).
  exists img. split; [exact H|].
  exact (render_size sample_kernels sample_band (4%nat, 6%nat) img H).
Defined.




(** ** Failures of a file and of the batch *)

(** X8: a file for which [process_file] returns [False] has written no
    file and printed nothing.  The only trace it can leave is its own
    output folder: line 88 creates the folder before the decomposition
    of line 91 can fail, and nothing removes it. *)
Theorem failed_file_leaves_only_folder (K : kernels) (self : config) (p : path)
    (w : world) (msg : string) (w' : world) :
  process_file K self p w = ((false, msg), w') ->
  w' = w \/ w' = set_dirs ({[galaxy_folder_of self p]} ∪ dirs w) w.
Proof.
  unfold process_file, process_file_body. unfold bind at 1.
  pose proof (load_world p w) as Hw.
  destruct (load p w) as [[[data hd]|e] w0]; simpl in Hw; subst w0.
  2: { intros [= _ <-]. by left. }
  destruct data as [r|]; [|intros [= _ <-]; by left].
  unfold bind at 1, lift.
  destruct (first_plane r) as [a|e]; [|intros [= _ <-]; by left].
  unfold bind at 1.
  assert (Hm : forall x w1, mkdir (galaxy_folder_of self p) w = (x, w1) ->
            (exists e, x = Raise e /\ w1 = w)
            \/ (x = Ok tt
                /\ w1 = set_dirs ({[galaxy_folder_of self p]} ∪ dirs w) w)).
  { intros x w1. unfold mkdir. destruct (bool_decide _).
    - intros [= <- <-]. left. eauto.
    - destruct (files w !! _); intros [= <- <-]; [left|right]; eauto. }
  destruct (mkdir (galaxy_folder_of self p) w) as [x w1] eqn:Hmk.
  destruct (Hm _ _ eq_refl) as [(e & -> & ->) | [-> ->]].
  { intros [= _ <-]. by left. }
  unfold bind at 1.
  set (w1 := set_dirs _ w).
  pose proof (wavedec2_world K a (wavelet self) (level self) w1) as Hww.
  destruct (wavedec2 K a (wavelet self) (level self) w1) as [[c|e] w2];
    simpl in Hww; subst w2.
  2: { intros [= _ <-]. by right. }
  unfold bind.
  destruct (save_bands_persisted K self (galaxy_folder_of self p) (stem p) hd
              (shape a) c w1) as (w2 & -> & _).
  simpl. discriminate.
Qed.

(** an unknown wavelet: the file fails and its folder stays *)
Lemma failed_file_leaves_only_folder_witness :
  let self := mk_config "DATA" "PROCESSED" "wavelet9" 4 in
  let r := process_file sample_kernels self sample_path world_input in
  fst (fst r) = false
  /\ snd r <> world_input
  /\ (snd r = world_input
      \/ snd r = set_dirs ({[galaxy_folder_of self sample_path]}
                           ∪ dirs world_input) world_input).
Proof.
  split; [reflexivity|]. split.
  - intros H. apply (f_equal dirs) in H. vm_compute in H. discriminate.
  - apply (failed_file_leaves_only_folder sample_kernels
             (mk_config "DATA" "PROCESSED" "wavelet9" 4) sample_path
             world_input
             (snd (fst (process_file sample_kernels
                          (mk_config "DATA" "PROCESSED" "wavelet9" 4)
                          sample_path world_input)))).
    vm_compute. reflexivity.
Defined.




(** X9: the output names depend on the stem of the input only: a file
    with the stem of an earlier one ([x.fits] after [x.fit]) is
    persisted under the paths of the earlier one, band for band, and
    replaces what was there. *)
Theorem same_stem_overwrites (K : kernels) (self : config) (p1 p2 : path)
    (w w1 : world) (r : raster) (hd : header) (data : ndarray float)
    (c : coeffs) :
  stem p1 = stem p2 ->
  load p2 w = (Ok (Some r, hd), w) ->
  first_plane r = Ok data ->
  mkdir (galaxy_folder_of self p2) w = (Ok tt, w1) ->
  wavedec2 K data (wavelet self) (level self) w1 = (Ok c, w1) ->
  exists w',
    process_file K self p2 w = ((true, "Sucesso"), w')
    /\ forall prefix band,
         In (prefix, band)
            (band_entries self (galaxy_folder_of self p1) (stem p1) c) ->
         prefix +:+ ".fits" ∉ denied w ->
         files w' !! (prefix +:+ ".fits")
         = Some (FitsFile [mk_hdu hd (Some (Plane band))]).
Proof.
  intros Hstem Hl Hp Hm Hd.
  destruct (process_file_effect K self p2 w w1 r hd data c Hl Hp Hm Hd)
    as (w' & Hrun & Hsave & Hden & _).
  exists w'. split; [done|]. intros prefix band Hin Hfits.
  destruct (save_all_effect K hd (shape data) _
              (band_entries_NoDup self (galaxy_folder_of self p2) (stem p2) c)
              w1) as (w'' & Hs & _ & _ & Hf & _).
  rewrite Hsave in Hs. injection Hs as <-. rewrite Hden in Hf.
  apply (Hf prefix band); [|done].
  unfold galaxy_folder_of in *. by rewrite <- Hstem.
Qed.

Lemma same_stem_overwrites_witness :
  exists w' band,
    process_file sample_kernels default_config sample_path world_input
    = ((true, "Sucesso"), w')
    /\ files w'
         !! ((galaxy_folder_of default_config (mk_path "DATA" "g" ".fit")
              +:+ "/" +:+ "g" +:+ "_core_approx") +:+ ".fits")
       = Some (FitsFile [mk_hdu sample_header (Some (Plane band))]).
Proof.
  pose (c := ltac:(let c := eval vm_compute in
                (match fst (wavedec2 sample_kernels sample_raster
                              "bior3.3" 4 world_input) with
                 | Ok c => c
                 | Raise _ => mk_coeffs sample_raster []
                 end) in exact c)).
  destruct (same_stem_overwrites sample_kernels default_config
              (mk_path "DATA" "g" ".fit") sample_path
              world_input (set_dirs {["PROCESSED/g"]} world_input)
              (Plane sample_raster) sample_header sample_raster c)
    as (w' & Hrun & Hall).
  - reflexivity.
  - vm_compute. reflexivity.
  - reflexivity.
  - vm_compute. reflexivity.
  - vm_compute. reflexivity.
  - exists w', (approx c). split; [exact Hrun|].
    apply (Hall _ (approx c)).
    + left. reflexivity.
    + apply (bool_decide_eq_false_1 _). vm_compute. reflexivity.
Defined.

(** ** Loading the configuration *)

(** X11: [_load_config] looks up [input_folder] and [output_folder] in
    [PATHS], then [wavelet_type] and [decomposition_level] in
    [PARAMETERS], in that order.  A lookup that finds no such section,
    or no such option in the section, is a [KeyError] on that name; the
    first such lookup ends the method without raising: one line
    [Erro no Config: '<name>'] is printed and exactly the attributes
    read before it are assigned.  When the four lookups succeed and
    the level is an integer literal, the four attributes are assigned
    and nothing is printed. *)
Theorem load_config_in_order (cp : parser) :
  (forall s key, has_section cp s = false ->
     getitem cp s key = inr (KeyError s))
  /\ (forall s key, has_section cp s = true -> has_option cp s key = false ->
        getitem cp s key = inr (KeyError key))
  /\ (forall k,
        getitem cp "PATHS" "input_folder" = inr (KeyError k) ->
        _load_config cp no_attributes
        = mk_load_outcome None no_attributes [key_error_line k])
  /\ (forall a k,
        getitem cp "PATHS" "input_folder" = inl a ->
        getitem cp "PATHS" "output_folder" = inr (KeyError k) ->
        _load_config cp no_attributes
        = mk_load_outcome None (mk_attributes (Some a) None None None)
            [key_error_line k])
  /\ (forall a b k,
        getitem cp "PATHS" "input_folder" = inl a ->
        getitem cp "PATHS" "output_folder" = inl b ->
        getitem cp "PARAMETERS" "wavelet_type" = inr (KeyError k) ->
        _load_config cp no_attributes
        = mk_load_outcome None (mk_attributes (Some a) (Some b) None None)
            [key_error_line k])
  /\ (forall a b c k,
        getitem cp "PATHS" "input_folder" = inl a ->
        getitem cp "PATHS" "output_folder" = inl b ->
        getitem cp "PARAMETERS" "wavelet_type" = inl c ->
        getitem cp "PARAMETERS" "decomposition_level" = inr (KeyError k) ->
        _load_config cp no_attributes
        = mk_load_outcome None (mk_attributes (Some a) (Some b) (Some c) None)
            [key_error_line k])
  /\ (forall a b c v n,
        getitem cp "PATHS" "input_folder" = inl a ->
        getitem cp "PATHS" "output_folder" = inl b ->
        getitem cp "PARAMETERS" "wavelet_type" = inl c ->
        getitem cp "PARAMETERS" "decomposition_level" = inl v ->
        int_of_str cp v = Some n ->
        _load_config cp no_attributes
        = mk_load_outcome None
            (mk_attributes (Some a) (Some b) (Some c) (Some n)) []).
Proof.
  repeat split.
  - intros s key Hs. unfold getitem. by rewrite Hs.
  - intros s key Hs Ho. unfold getitem. by rewrite Hs, Ho.
  - intros k H1. unfold _load_config. by rewrite H1.
  - intros a k H1 H2. unfold _load_config. by rewrite H1, H2.
  - intros a b k H1 H2 H3. unfold _load_config. by rewrite H1, H2, H3.
  - intros a b c k H1 H2 H3 H4. unfold _load_config. by rewrite H1, H2, H3, H4.
  - intros a b c v n H1 H2 H3 H4 H5. unfold _load_config.
    by rewrite H1, H2, H3, H4, H5.
Qed.

(** a file without the section [PARAMETERS]: the two folders are
    assigned and the line names the section *)
Lemma load_config_in_order_witness :
  _load_config paths_only_parser no_attributes
  = mk_load_outcome None
      (mk_attributes (Some "DATA") (Some "PROCESSED") None None)
      [key_error_line "PARAMETERS"].
Proof.
  destruct (load_config_in_order paths_only_parser)
    as (Hsec & _ & _ & _ & Hwavelet & _).
  apply Hwavelet; [reflexivity | reflexivity |].
  apply Hsec. reflexivity.
Defined.

(** the default file gives the default attributes *)
Example load_default_config :
  _load_config default_parser no_attributes
  = mk_load_outcome None
      (mk_attributes (Some "DATA") (Some "PROCESSED") (Some "bior3.3")
         (Some 4)) [].
Proof. reflexivity. Qed.

(** without the section [PARAMETERS]: one line, two attributes *)
Example load_paths_only :
  _load_config paths_only_parser no_attributes
  = mk_load_outcome None
      (mk_attributes (Some "DATA") (Some "PROCESSED") None None)
      ["Erro no Config: 'PARAMETERS'" +:+ newline].
Proof. reflexivity. Qed.

(** X12: a level that is not an integer literal is not caught by the
    handler of [_load_config]: the [ValueError] leaves the method,
    nothing is printed, and the three attributes read before it stay
    assigned. *)
Theorem load_config_bad_level (cp : parser) (a b c v : string) :
  getitem cp "PATHS" "input_folder" = inl a ->
  getitem cp "PATHS" "output_folder" = inl b ->
  getitem cp "PARAMETERS" "wavelet_type" = inl c ->
  getitem cp "PARAMETERS" "decomposition_level" = inl v ->
  int_of_str cp v = None ->
  _load_config cp no_attributes
  = mk_load_outcome (Some (IntValueError v))
      (mk_attributes (Some a) (Some b) (Some c) None) [].
Proof.
  intros H1 H2 H3 H4 H5. unfold _load_config.
  by rewrite H1, H2, H3, H4, H5.
Qed.

Lemma load_config_bad_level_witness :
  _load_config bad_level_parser no_attributes
  = mk_load_outcome (Some (IntValueError "four"))
      (mk_attributes (Some "DATA") (Some "PROCESSED") (Some "bior3.3") None)
      [].
Proof.
  apply (load_config_bad_level bad_level_parser "DATA" "PROCESSED" "bior3.3"
           "four"); reflexivity.
Defined.

(** ** Empty bands *)

(** X14: an empty band still gets its FITS file: the FITS write comes
    before the image is computed, the reduction over the empty array
    then raises, the handler prints its message and no PNG is
    written. *)
Theorem save_image_empty_band (K : kernels) (data : ndarray float)
    (prefix : string) (hd : option header) (rt : option (nat * nat))
    (w : world) :
  flat data = [] ->
  prefix +:+ ".fits" ∉ denied w ->
  exists w',
    _save_image K data prefix hd rt w = (Ok tt, w')
    /\ files w' = <[prefix +:+ ".fits" := FitsFile [PrimaryHDU data hd]]> (files w)
    /\ stdout w' = stdout w ++
         ["Erro ao salvar: zero-size array to reduction operation minimum which has no identity"
          +:+ newline].
Proof.
  intros Hnil Hden. rewrite _save_image_eq.
  rewrite bool_decide_eq_false_2 by done. cbv zeta.
  unfold render, normalize, np_min, reduce. simpl. rewrite Hnil. simpl.
  eexists. split; [reflexivity|]. done.
Qed.

Lemma save_image_empty_band_witness :
  exists w',
    _save_image sample_kernels (mk_ndarray 0 0 []) "out/band"
      (Some sample_header) None world_input = (Ok tt, w')
    /\ files w' !! "out/band.png" = None.
Proof.
  destruct (save_image_empty_band sample_kernels (mk_ndarray 0 0 [])
              "out/band" (Some sample_header) None world_input)
    as (w' & Hrun & Hfiles & _).
  - reflexivity.
  - apply (bool_decide_eq_false_1 _). vm_compute. reflexivity.
  - exists w'. split; [exact Hrun|]. rewrite Hfiles. vm_compute. reflexivity.
Defined.

(** ** The header of the persisted bands *)

(** C10: when the first HDU has no data, the raster is the one of the
    second HDU and the header is still the one of the first.  Every
    FITS file that [process_file] creates or replaces consists of one
    HDU carrying that header, and when the decomposition succeeds every
    band whose FITS path can be written is on disk afterwards as that
    band under that one header. *)
Theorem header_of_primary_hdu (K : kernels) (self : config) (p : path)
    (w : world) (h0 h1 : hdu) (rest : list hdu) :
  files w !! path_str p = Some (FitsFile (h0 :: h1 :: rest)) ->
  hdu_data h0 = None ->
  load p w = (Ok (hdu_data h1, hdu_header h0), w)
  /\ persisted (hdu_header h0) w (snd (process_file K self p w))
  /\ forall r data w1 c,
       hdu_data h1 = Some r ->
       first_plane r = Ok data ->
       mkdir (galaxy_folder_of self p) w = (Ok tt, w1) ->
       wavedec2 K data (wavelet self) (level self) w1 = (Ok c, w1) ->
       forall prefix band,
         In (prefix, band)
            (band_entries self (galaxy_folder_of self p) (stem p) c) ->
         prefix +:+ ".fits" ∉ denied w ->
         files (snd (process_file K self p w)) !! (prefix +:+ ".fits")
         = Some (FitsFile [mk_hdu (hdu_header h0) (Some (Plane band))]).
Proof.
  intros Hf H0. pose proof (load_eq p w h0 (h1 :: rest) Hf) as Hl.
  rewrite H0 in Hl. split; [exact Hl|]. split.
  { by apply (process_file_persisted K self p w (hdu_data h1)). }
  intros r data w1 c H1 Hp Hm Hd prefix band Hin Hden.
  rewrite H1 in Hl.
  destruct (process_file_effect K self p w w1 r (hdu_header h0) data c
              Hl Hp Hm Hd) as (w' & Hrun & Hsave & Hden1 & _).
  rewrite Hrun. simpl.
  destruct (save_all_effect K (hdu_header h0) (shape data) _
              (band_entries_NoDup self (galaxy_folder_of self p) (stem p) c)
              w1) as (w'' & Hs & _ & _ & Hfits & _).
  rewrite Hsave in Hs. injection Hs as <-.
  apply (Hfits prefix band Hin). by rewrite Hden1.
Qed.

Lemma header_of_primary_hdu_witness :
  load sample_path world_second_hdu
  = (Ok (Some (Plane sample_raster), sample_header), world_second_hdu)
  /\ persisted sample_header world_second_hdu
       (snd (process_file sample_kernels default_config sample_path
               world_second_hdu))
  /\ exists band,
       files (snd (process_file sample_kernels default_config sample_path
                     world_second_hdu))
         !! ("PROCESSED/g/g_core_approx" +:+ ".fits")
       = Some (FitsFile [mk_hdu sample_header (Some (Plane band))]).
Proof.
  pose (c := ltac:(let c := eval vm_compute in
                (match fst (wavedec2 sample_kernels sample_raster
                              "bior3.3" 4 world_second_hdu) with
                 | Ok c => c
                 | Raise _ => mk_coeffs sample_raster []
                 end) in exact c)).
  destruct (header_of_primary_hdu sample_kernels default_config sample_path
              world_second_hdu (mk_hdu sample_header None)
              (mk_hdu second_header (Some (Plane sample_raster))) [])
    as (Hload & Hpers & Hbands); [reflexivity | reflexivity |].
  split; [exact Hload|]. split; [exact Hpers|].
  exists (approx c).
  apply (Hbands (Plane sample_raster) sample_raster
           (set_dirs {["PROCESSED/g"]} world_second_hdu) c).
  - reflexivity.
  - reflexivity.
  - vm_compute. reflexivity.
  - vm_compute. reflexivity.
  - left. reflexivity.
  - apply (bool_decide_eq_false_1 _). vm_compute. reflexivity.
Defined.

(** on the sample file: the approximation is written with the header
    of the first HDU, not with the one of the HDU the raster came from *)
Example second_hdu_approximation_header :
  match files (snd (process_file sample_kernels default_config sample_path
                      world_second_hdu))
        !! "PROCESSED/g/g_core_approx.fits" with
  | Some (FitsFile [h]) => hdu_header h = sample_header
  | _ => False
  end.
Proof. vm_compute. reflexivity. Qed.
